(** * terraform-provider-pathfinder: the movement reconciler and its probes

    A shallow embedding of [internal/provider], [internal/clients] and
    [internal/clients/model], with the parts of [net/http],
    [encoding/json] and the plugin framework that the handlers call.

    Conventions
    - a Go package is a [Module]; a Go struct is a [Module] holding a
      record [t], so that the fields keep their Go names;
    - [int64] is [Z], [float64] is an IEEE-754 binary64 value
      ([spec_float] at precision 53, maximal exponent 1024);
    - the provider computes no float: every [float64] it holds was read
      out of a framework value or written by the JSON decoder, and is a
      number; those variables have the type [finite64];
    - a Go [(value, error)] pair is a [result];
    - a handler mutates [resp] and may talk to the device: it is a
      function on a [world] (the response under construction and the
      requests handed to the HTTP client so far) that either goes on,
      returns early, or panics. *)

From Stdlib Require Import ZArith String Ascii List Bool Lia SpecFloat DecimalString.
From stdpp Require Import base option list strings gmap.

Set Warnings "-register-all".

Local Open Scope string_scope.
Local Open Scope Z_scope.

(** ** Go values *)

(** A Go [error]: only its message is observable to the provider. *)
Definition error := string.

Inductive result (A : Type) : Type :=
| Ok (a : A)
| Err (e : error).
Arguments Ok {A} a.
Arguments Err {A} e.

Definition result_bind {A B} (r : result A) (k : A -> result B) : result B :=
  match r with
  | Ok a => k a
  | Err e => Err e
  end.

Notation "'try' x := r 'in' k" := (result_bind r (fun x => k))
  (at level 10, x name, r at level 100, k at level 200).

Definition is_Ok {A} (r : result A) : bool :=
  match r with Ok _ => true | Err _ => false end.

(** Left-to-right traversal that stops at the first error. *)
Fixpoint mapM_result {A B} (f : A -> result B) (l : list A) : result (list B) :=
  match l with
  | [] => Ok []
  | x :: l' =>
      match f x with
      | Err e => Err e
      | Ok y =>
          match mapM_result f l' with
          | Err e => Err e
          | Ok ys => Ok (y :: ys)
          end
      end
  end.

Fixpoint foldM_result {A S} (f : S -> A -> result S) (l : list A) (s : S) : result S :=
  match l with
  | [] => Ok s
  | x :: l' =>
      match f s x with
      | Err e => Err e
      | Ok s' => foldM_result f l' s'
      end
  end.

Definition int64 := Z.
Definition int64_min : Z := - 2 ^ 63.
Definition int64_max : Z := 2 ^ 63 - 1.
Definition in_int64 (z : Z) : bool := (int64_min <=? z) && (z <=? int64_max).

Definition float64 := spec_float.

(** The values a Go [float64] variable can hold: the canonical binary64
    representations. *)
Definition float64_valid (f : float64) : bool := valid_binary 53 1024 f.

(** [float64(z)] for an integer literal: round to nearest, ties to even. *)
Definition float64_of_Z (z : Z) : float64 := binary_normalize 53 1024 z 0 false.

(** Go's [<] and [>] on [float64]: false as soon as an operand is NaN. *)
Definition float64_lt (x y : float64) : bool := SFltb x y.
Definition float64_gt (x y : float64) : bool := SFltb y x.

(** The [float64] values that are numbers: the zeros and the finite
    non-zero values, without NaN and the infinities.

    These are the values of the [float64] variables of the provider.
    A number of a plan, a state or a configuration reaches a handler
    through [Get], which refuses one outside the range of [float64],
    and [ValueFloat64] hands out its nearest [float64]; the JSON
    decoder refuses a literal that overflows; and the handlers only
    copy what they got from either. *)
Inductive finite64 : Type :=
| Zero64 (s : bool)
| Finite64 (s : bool) (m : positive) (e : Z).

Definition float64_of_finite (x : finite64) : float64 :=
  match x with
  | Zero64 s => S754_zero s
  | Finite64 s m e => S754_finite s m e
  end.

Definition finite_of_float64 (f : float64) : option finite64 :=
  match f with
  | S754_zero s => Some (Zero64 s)
  | S754_finite s m e => Some (Finite64 s m e)
  | S754_infinity _ | S754_nan => None
  end.

(** ** encoding/json, on syntax trees

    The text of a JSON document is abstracted to its tree.  A number
    literal is either written as an integer ([-]digits) or with a
    fraction or exponent; the latter carries the [float64] that
    [strconv.ParseFloat] yields for it (an infinity when it is out of
    range).  Strings are Terraform strings, hence valid UTF-8. *)
Module json.

Inductive Number : Type :=
| Integer (neg : bool) (n : N)
| Fraction (f : float64).

Inductive Value : Type :=
| Null
| Bool (b : bool)
| Num (n : Number)
| Str (s : string)
| Array (l : list Value)
| Object (members : list (string * Value)).

(** What a reader finds in a byte stream: nothing, bytes that are not a
    JSON value, with the error that the scanner reports for them (a
    [*SyntaxError] such as [invalid character '<' looking for beginning
    of value], or [unexpected EOF]), or the encoding of [v]. *)
Inductive Bytes : Type :=
| Empty
| Malformed (err : error)
| Doc (v : Value).

Definition Z_of_literal (neg : bool) (n : N) : Z :=
  if neg then - Z.of_N n else Z.of_N n.

(** *** Encoding *)

Definition encodeInt64 (z : int64) : Value :=
  Num (Integer (z <? 0) (Z.abs_N z)).

(** The magnitude of a finite non-zero float when it is a whole number. *)
Definition whole (m : positive) (e : Z) : option N :=
  if 0 <=? e then Some (Z.to_N (Z.pos m * 2 ^ e))
  else if (Z.pos m) mod (2 ^ (- e)) =? 0 then Some (Z.to_N (Z.pos m / 2 ^ (- e)))
  else None.

(** [floatEncoder]: NaN and the infinities are unsupported; otherwise
    the shortest text that parses back to [f], in format 'f' unless
    [abs < 1e-6 || abs >= 1e21].  In format 'f' a whole number has no
    fraction, so its text is an integer literal. *)
Definition encodeFloat64 (f : float64) : result Value :=
  match f with
  | S754_nan => Err "json: unsupported value: NaN"
  | S754_infinity s => Err (if s then "json: unsupported value: -Inf"
                            else "json: unsupported value: +Inf")
  | S754_zero s => Ok (Num (Integer s 0))
  | S754_finite s m e =>
      match whole m e with
      | Some n =>
          if (Z.of_N n <? 10 ^ 21) then Ok (Num (Integer s n))
          else Ok (Num (Fraction f))
      | None => Ok (Num (Fraction f))
      end
  end.

(** *** Decoding errors

    A value of the wrong kind for its destination is an
    [*UnmarshalTypeError].  Its text names the JSON value, the Go type
    of the destination and, inside a struct, the struct and the path of
    field names that leads to the destination. *)

(** [errorContext]: the innermost struct and the field stack. *)
Definition Context : Type := option (string * list string).

Definition enter (ctx : Context) (struct name : string) : Context :=
  match ctx with
  | None => Some (struct, [name])
  | Some (_, stack) => Some (struct, (stack ++ [name])%list)
  end.

Definition UnmarshalTypeError (ctx : Context) (value type : string) : error :=
  match ctx with
  | None =>
      "json: cannot unmarshal " +:+ value +:+ " into Go value of type " +:+ type
  | Some (struct, stack) =>
      "json: cannot unmarshal " +:+ value +:+ " into Go struct field "
      +:+ struct +:+ "." +:+ String.concat "." stack +:+ " of type " +:+ type
  end.

(** How the error names a value that has the wrong kind. *)
Definition describe (v : Value) : string :=
  match v with
  | Null => "null"
  | Bool _ => "bool"
  | Num _ => "number"
  | Str _ => "string"
  | Array _ => "array"
  | Object _ => "object"
  end.

(** How the error names a number that does not fit: [number] followed
    by the literal.  The tree keeps the digits of an integer literal
    only. *)
Definition describeNumber (n : Number) : string :=
  match n with
  | Integer neg d =>
      "number " +:+ (if neg then "-" else "") +:+ NilZero.string_of_uint (N.to_uint d)
  | Fraction _ => "number"
  end.

(** *** Decoding into Go values

    Every decoder takes the value already stored in the destination,
    which JSON [null] leaves as it is. *)

Definition decodeBool (ctx : Context) (v : Value) (old : bool) : result bool :=
  match v with
  | Null => Ok old
  | Bool b => Ok b
  | _ => Err (UnmarshalTypeError ctx (describe v) "bool")
  end.

Definition decodeString (ctx : Context) (v : Value) (old : string) : result string :=
  match v with
  | Null => Ok old
  | Str s => Ok s
  | _ => Err (UnmarshalTypeError ctx (describe v) "string")
  end.

Definition decodeInt64 (ctx : Context) (v : Value) (old : int64) : result int64 :=
  match v with
  | Null => Ok old
  | Num (Integer neg n) =>
      let z := Z_of_literal neg n in
      if in_int64 z then Ok z
      else Err (UnmarshalTypeError ctx (describeNumber (Integer neg n)) "int64")
  | Num n => Err (UnmarshalTypeError ctx (describeNumber n) "int64")
  | _ => Err (UnmarshalTypeError ctx (describe v) "int64")
  end.

(** [strconv.ParseFloat] rounds the literal to the nearest [float64];
    a literal that overflows is refused. *)
Definition decodeFloat64 (ctx : Context) (v : Value) (old : finite64) : result finite64 :=
  match v with
  | Null => Ok old
  | Num (Integer neg n) =>
      match finite_of_float64 (binary_normalize 53 1024 (Z_of_literal neg n) 0 neg) with
      | Some f => Ok f
      | None => Err (UnmarshalTypeError ctx (describeNumber (Integer neg n)) "float64")
      end
  | Num (Fraction f) =>
      match finite_of_float64 f with
      | Some f => Ok f
      | None => Err (UnmarshalTypeError ctx (describeNumber (Fraction f)) "float64")
      end
  | _ => Err (UnmarshalTypeError ctx (describe v) "float64")
  end.

(** The elements of an array: element [i] is decoded into the element
    the slice already has at [i], or into a zero value past its end. *)
Fixpoint decodeElems {T} (elem : Value -> T -> result T) (zero : T)
    (l : list Value) (old : list T) : result (list T) :=
  match l with
  | [] => Ok []
  | x :: l' =>
      match elem x (hd zero old) with
      | Err e => Err e
      | Ok y =>
          match decodeElems elem zero l' (tl old) with
          | Err e => Err e
          | Ok ys => Ok (y :: ys)
          end
      end
  end.

(** A slice of Go type [type]: [null] makes it nil; an array sets its
    length and its elements. *)
Definition decodeSlice {T} (type : string) (elem : Context -> Value -> T -> result T)
    (zero : T) (ctx : Context) (v : Value) (old : list T) : result (list T) :=
  match v with
  | Null => Ok []
  | Array l => decodeElems (elem ctx) zero l old
  | _ => Err (UnmarshalTypeError ctx (describe v) type)
  end.

(** A pointer: [null] makes it nil, anything else is decoded into the
    pointee, allocated when the pointer was nil. *)
Definition decodePtr {T} (elem : Context -> Value -> T -> result T) (zero : T)
    (ctx : Context) (v : Value) (old : option T) : result (option T) :=
  match v with
  | Null => Ok None
  | _ =>
      match elem ctx v (default zero old) with
      | Ok t => Ok (Some t)
      | Err e => Err e
      end
  end.

(** A [map[string]T] of Go type [type]: [null] makes it nil; each
    member is decoded into a fresh zero element and stored under its
    exact key. *)
Definition decodeMap {T} (type : string) (elem : Context -> Value -> T -> result T)
    (zero : T) (ctx : Context) (v : Value) (old : gmap string T)
    : result (gmap string T) :=
  match v with
  | Null => Ok ∅
  | Object ms =>
      foldM_result
        (fun m kv =>
           match elem ctx kv.2 zero with
           | Ok t => Ok (<[kv.1 := t]> m)
           | Err e => Err e
           end)
        ms old
  | _ => Err (UnmarshalTypeError ctx (describe v) type)
  end.

(** *** Struct fields *)

Definition upper (c : ascii) : ascii :=
  let n := N_of_ascii c in
  if ((97 <=? n) && (n <=? 122))%N then ascii_of_N (n - 32) else c.

(** [foldName]: ASCII letters to upper case; the Kelvin sign (E2 84 AA)
    and the long s (C5 BF) are the only other runes whose case folding
    is an ASCII letter. *)
Fixpoint foldName (s : string) : string :=
  match s with
  | EmptyString => EmptyString
  | String c s' =>
      let n := N_of_ascii c in
      if (n <? 128)%N then String (upper c) (foldName s')
      else
        match s' with
        | String c1 s1 =>
            if ((n =? 197) && (N_of_ascii c1 =? 191))%N
            then String "S"%char (foldName s1)
            else
              match s1 with
              | String c2 s2 =>
                  if ((n =? 226) && (N_of_ascii c1 =? 132) && (N_of_ascii c2 =? 170))%N
                  then String "K"%char (foldName s2)
                  else String c (foldName s')
              | EmptyString => String c (foldName s')
              end
        | EmptyString => String c EmptyString
        end
  end.

(** A field: its name in the [json:"..."] tag and how a member value
    updates the struct. *)
Definition field (T : Type) : Type :=
  (string * (Context -> Value -> T -> result T))%type.

(** The field an object key addresses: an exact match is preferred,
    else the first match up to case folding. *)
Definition lookupField {T} (fs : list (field T)) (key : string) : option (field T) :=
  match List.find (fun f : field T => String.eqb (fst f) key) fs with
  | Some f => Some f
  | None => List.find (fun f : field T => String.eqb (foldName (fst f)) (foldName key)) fs
  end.

(** A struct named [name], of Go type [type]: [null] leaves it alone;
    the members of an object are taken in order, unknown keys are
    skipped. *)
Definition decodeStruct {T} (name type : string) (fs : list (field T))
    (ctx : Context) (v : Value) (old : T) : result T :=
  match v with
  | Null => Ok old
  | Object ms =>
      foldM_result
        (fun t kv =>
           match lookupField fs (fst kv) with
           | Some f => snd f (enter ctx name (fst f)) (snd kv) t
           | None => Ok t
           end)
        ms old
  | _ => Err (UnmarshalTypeError ctx (describe v) type)
  end.

(** [json.NewDecoder(r).Decode(&v)] with [v] holding [zero]. *)
Definition Decode {T} (dec : Context -> Value -> T -> result T) (zero : T) (r : Bytes)
    : result T :=
  match r with
  | Empty => Err "EOF"
  | Malformed err => Err err
  | Doc v => dec None v zero
  end.

End json.

(** ** internal/clients/model: the wire shapes and their JSON tags

    A [float64] field is written by the decoder, or by [Create] from
    [ValueFloat64]: it holds a [finite64]. *)
Module model.

Module MovementStepItem.
Record t := mk { Angle : int64; Direction : string; Distance : finite64 }.
Definition zero : t := mk 0 "" (Zero64 false).
Definition fields : list (json.field t) :=
  [ ("angle", fun ctx v x =>
       try a := json.decodeInt64 ctx v (Angle x) in Ok (mk a (Direction x) (Distance x)));
    ("direction", fun ctx v x =>
       try d := json.decodeString ctx v (Direction x) in Ok (mk (Angle x) d (Distance x)));
    ("distance", fun ctx v x =>
       try d := json.decodeFloat64 ctx v (Distance x) in Ok (mk (Angle x) (Direction x) d)) ].
Definition decode : json.Context -> json.Value -> t -> result t :=
  json.decodeStruct "MovementStepItem" "model.MovementStepItem" fields.
Definition encode (x : t) : result json.Value :=
  try d := json.encodeFloat64 (float64_of_finite (Distance x)) in
  Ok (json.Object [ ("angle", json.encodeInt64 (Angle x));
                    ("direction", json.Str (Direction x));
                    ("distance", d) ]).
End MovementStepItem.

Module MovementRequest.
Record t := mk { Name : string; Persist : bool; Steps : list MovementStepItem.t }.
Definition zero : t := mk "" false [].
Definition fields : list (json.field t) :=
  [ ("name", fun ctx v x =>
       try n := json.decodeString ctx v (Name x) in Ok (mk n (Persist x) (Steps x)));
    ("persist", fun ctx v x =>
       try p := json.decodeBool ctx v (Persist x) in Ok (mk (Name x) p (Steps x)));
    ("steps", fun ctx v x =>
       try s := json.decodeSlice "[]model.MovementStepItem" MovementStepItem.decode
                  MovementStepItem.zero ctx v (Steps x)
       in Ok (mk (Name x) (Persist x) s)) ].
Definition decode : json.Context -> json.Value -> t -> result t :=
  json.decodeStruct "MovementRequest" "model.MovementRequest" fields.
Definition encode (x : t) : result json.Value :=
  try s := mapM_result MovementStepItem.encode (Steps x) in
  Ok (json.Object [ ("name", json.Str (Name x));
                    ("persist", json.Bool (Persist x));
                    ("steps", json.Array s) ]).
End MovementRequest.

Module MovementResponse.
Record t := mk { Moving : bool }.
Definition zero : t := mk false.
Definition fields : list (json.field t) :=
  [ ("moving", fun ctx v x => try b := json.decodeBool ctx v (Moving x) in Ok (mk b)) ].
Definition decode : json.Context -> json.Value -> t -> result t :=
  json.decodeStruct "MovementResponse" "model.MovementResponse" fields.
End MovementResponse.

Module MovementLockResponse.
Record t := mk { Locked : bool }.
Definition zero : t := mk false.
Definition fields : list (json.field t) :=
  [ ("locked", fun ctx v x => try b := json.decodeBool ctx v (Locked x) in Ok (mk b)) ].
Definition decode : json.Context -> json.Value -> t -> result t :=
  json.decodeStruct "MovementLockResponse" "model.MovementLockResponse" fields.
End MovementLockResponse.

Module HealthzResponse.
Record t := mk { Healthy : bool }.
Definition zero : t := mk false.
Definition fields : list (json.field t) :=
  [ ("healthy", fun ctx v x => try b := json.decodeBool ctx v (Healthy x) in Ok (mk b)) ].
Definition decode : json.Context -> json.Value -> t -> result t :=
  json.decodeStruct "HealthzResponse" "model.HealthzResponse" fields.
End HealthzResponse.

Module ReadyzResponse.
Record t := mk { Ready : bool }.
Definition zero : t := mk false.
Definition fields : list (json.field t) :=
  [ ("ready", fun ctx v x => try b := json.decodeBool ctx v (Ready x) in Ok (mk b)) ].
Definition decode : json.Context -> json.Value -> t -> result t :=
  json.decodeStruct "ReadyzResponse" "model.ReadyzResponse" fields.
End ReadyzResponse.

Module BatteryResponse.
Record t := mk { Unit : string; Value : int64 }.
Definition zero : t := mk "" 0.
Definition fields : list (json.field t) :=
  [ ("unit", fun ctx v x =>
       try u := json.decodeString ctx v (Unit x) in Ok (mk u (Value x)));
    ("value", fun ctx v x =>
       try n := json.decodeInt64 ctx v (Value x) in Ok (mk (Unit x) n)) ].
Definition decode : json.Context -> json.Value -> t -> result t :=
  json.decodeStruct "BatteryResponse" "model.BatteryResponse" fields.
End BatteryResponse.

Module WifiNetworkItem.
Record t := mk { Encrypted : bool; Rssi : finite64; Ssid : string }.
Definition zero : t := mk false (Zero64 false) "".
Definition fields : list (json.field t) :=
  [ ("encrypted", fun ctx v x =>
       try b := json.decodeBool ctx v (Encrypted x) in Ok (mk b (Rssi x) (Ssid x)));
    ("rssi", fun ctx v x =>
       try f := json.decodeFloat64 ctx v (Rssi x) in Ok (mk (Encrypted x) f (Ssid x)));
    ("ssid", fun ctx v x =>
       try s := json.decodeString ctx v (Ssid x) in Ok (mk (Encrypted x) (Rssi x) s)) ].
Definition decode : json.Context -> json.Value -> t -> result t :=
  json.decodeStruct "WifiNetworkItem" "model.WifiNetworkItem" fields.
End WifiNetworkItem.

Module DeviceResponseIdentifiers.
Record t := mk { Long : string; Short : string }.
Definition zero : t := mk "" "".
Definition fields : list (json.field t) :=
  [ ("long", fun ctx v x =>
       try s := json.decodeString ctx v (Long x) in Ok (mk s (Short x)));
    ("short", fun ctx v x =>
       try s := json.decodeString ctx v (Short x) in Ok (mk (Long x) s)) ].
Definition decode : json.Context -> json.Value -> t -> result t :=
  json.decodeStruct "DeviceResponseIdentifiers" "model.DeviceResponseIdentifiers" fields.
End DeviceResponseIdentifiers.

Module DeviceResponseVersions.
Record t := mk { Api : string; App : string }.
Definition zero : t := mk "" "".
Definition fields : list (json.field t) :=
  [ ("api", fun ctx v x => try s := json.decodeString ctx v (Api x) in Ok (mk s (App x)));
    ("app", fun ctx v x => try s := json.decodeString ctx v (App x) in Ok (mk (Api x) s)) ].
Definition decode : json.Context -> json.Value -> t -> result t :=
  json.decodeStruct "DeviceResponseVersions" "model.DeviceResponseVersions" fields.
End DeviceResponseVersions.

Module DeviceResponse.
Record t := mk {
  Features : gmap string bool;
  Identifiers : option DeviceResponseIdentifiers.t;
  Name : string;
  Uptime : finite64;
  Versions : option DeviceResponseVersions.t }.
Definition zero : t := mk ∅ None "" (Zero64 false) None.
Definition fields : list (json.field t) :=
  [ ("features", fun ctx v x =>
       try m := json.decodeMap "map[string]bool" json.decodeBool false ctx v (Features x) in
       Ok (mk m (Identifiers x) (Name x) (Uptime x) (Versions x)));
    ("identifiers", fun ctx v x =>
       try p := json.decodePtr DeviceResponseIdentifiers.decode
                  DeviceResponseIdentifiers.zero ctx v (Identifiers x) in
       Ok (mk (Features x) p (Name x) (Uptime x) (Versions x)));
    ("name", fun ctx v x =>
       try s := json.decodeString ctx v (Name x) in
       Ok (mk (Features x) (Identifiers x) s (Uptime x) (Versions x)));
    ("uptime", fun ctx v x =>
       try f := json.decodeFloat64 ctx v (Uptime x) in
       Ok (mk (Features x) (Identifiers x) (Name x) f (Versions x)));
    ("versions", fun ctx v x =>
       try p := json.decodePtr DeviceResponseVersions.decode
                  DeviceResponseVersions.zero ctx v (Versions x) in
       Ok (mk (Features x) (Identifiers x) (Name x) (Uptime x) p)) ].
Definition decode : json.Context -> json.Value -> t -> result t :=
  json.decodeStruct "DeviceResponse" "model.DeviceResponse" fields.
End DeviceResponse.

End model.

(** ** net/http *)
Module http.
Definition MethodGet : string := "GET".
Definition MethodPost : string := "POST".
Definition MethodDelete : string := "DELETE".
Definition StatusNotFound : Z := 404.

Module Request.
Record t := mk {
  Method : string;
  URL : string;
  Header : list (string * string);
  Body : json.Bytes }.
End Request.

Module Response.
Record t := mk { StatusCode : Z; Body : json.Bytes }.
End Response.

(** [*http.Client]: what a round trip yields is up to the network and
    the device, so the client is the function that answers. *)
Module Client.
Record t := mk { Do : Request.t -> result Response.t }.
End Client.

(** [http.NewRequestWithContext] with a non-nil context and one of the
    method constants: it fails exactly when [url.Parse] rejects the
    address, which [parses] decides.  A new request has no header, and
    [URL] keeps the text it was parsed from. *)
Definition NewRequestWithContext (parses : string -> bool)
    (method url : string) (body : json.Bytes) : result Request.t :=
  if parses url then Ok (Request.mk method url [] body)
  else Err ("parse " +:+ url).
End http.

(** ** internal/clients *)
Module clients.
Module ClientConfig.
Record t := mk { Address : string; ApiKey : string }.
End ClientConfig.

Module Client.
Record t := mk { Config : ClientConfig.t; HttpClient : http.Client.t }.
End Client.

(** [NewClient]; [DefaultClient] stands for [http.DefaultClient]. *)
Definition NewClient (DefaultClient : http.Client.t) (config : ClientConfig.t)
    : result Client.t :=
  Ok (Client.mk config DefaultClient).
End clients.

(** ** terraform-plugin-framework: attribute values and diagnostics *)
Module types.
(** An attribute value is null, unknown, or known. *)
Inductive Value (A : Type) : Type :=
| Null
| Unknown
| Known (a : A).
Arguments Null {A}.
Arguments Unknown {A}.
Arguments Known {A} a.

Definition ValueString (v : Value string) : string :=
  match v with Known s => s | _ => "" end.
Definition ValueBool (v : Value bool) : bool :=
  match v with Known b => b | _ => false end.
Definition ValueInt64 (v : Value int64) : int64 :=
  match v with Known z => z | _ => 0 end.
Definition ValueFloat64 (v : Value finite64) : finite64 :=
  match v with Known f => f | _ => Zero64 false end.

Definition StringValue (s : string) : Value string := Known s.
Definition BoolValue (b : bool) : Value bool := Known b.
Definition Int64Value (z : int64) : Value int64 := Known z.
Definition Float64Value (f : finite64) : Value finite64 := Known f.

Definition String : Type := Value string.
Definition Bool : Type := Value bool.
Definition Int64 : Type := Value int64.
(** A known [Float64] holds a number: the framework keeps it as a
    [big.Float], which has no NaN, and only lets one within the range of
    [float64] into a plan, a state or a configuration. *)
Definition Float64 : Type := Value finite64.
Definition Map : Type := Value (gmap string string).
End types.

Module diag.
Inductive Severity : Type := SeverityError | SeverityWarning.

(** The failure taxonomy of the design: which step of an operation a
    diagnostic reports.  The Go value holds severity, summary and
    detail only; [Kind] records the call whose error is reported. *)
Inductive Kind : Type :=
| validation
| encode
| transport
| unexpected_status
| decode
| configuration    (* provider set-up, outside the taxonomy *)
| framework.       (* reported by the plugin framework itself *)

Module Diagnostic.
Record t := mk {
  Severity_ : Severity;
  Kind_ : Kind;
  Summary : string;
  Detail : string }.
End Diagnostic.

Definition Diagnostics : Type := list Diagnostic.t.

Definition isError (d : Diagnostic.t) : bool :=
  match Diagnostic.Severity_ d with SeverityError => true | SeverityWarning => false end.

Definition HasError (ds : Diagnostics) : bool := existsb isError ds.

Definition NewErrorDiagnostic (k : Kind) (summary detail : string) : Diagnostic.t :=
  Diagnostic.mk SeverityError k summary detail.
End diag.

(** The response a handler fills in: [resp.Diagnostics] and
    [resp.State], [None] being the null state of a removed object. *)
Module Response.
Record t (T : Type) := mk { Diagnostics : diag.Diagnostics; State : option T }.
Arguments mk {T} _ _.
Arguments Diagnostics {T} _.
Arguments State {T} _.
End Response.

(** [tfsdk]: [Plan.Get], [State.Get] and [Config.Get] convert the
    value that the host holds into the model struct.  The conversion
    reports a Value Conversion Error, after which every handler returns
    at once, for a value that the struct cannot take: the structs
    mirror their schemas, which leaves the number that [int64] or
    [float64] cannot represent.  The records of this development hold
    the converted values, so [Get] reports nothing on them. *)
Module tfsdk.
Definition Get {T} (src : T) : diag.Diagnostics * T := ([], src).
End tfsdk.

Module resource.
Module CreateRequest.
Record t (T : Type) := mk { Plan : T }.
Arguments mk {T} _.
Arguments Plan {T} _.
End CreateRequest.

Module ReadRequest.
Record t (T : Type) := mk { State : T }.
Arguments mk {T} _.
Arguments State {T} _.
End ReadRequest.

Module UpdateRequest.
Record t (T : Type) := mk { Plan : T; State : T }.
Arguments mk {T} _ _.
Arguments Plan {T} _.
Arguments State {T} _.
End UpdateRequest.

Module DeleteRequest.
Record t (T : Type) := mk { State : T }.
Arguments mk {T} _.
Arguments State {T} _.
End DeleteRequest.
End resource.

Module datasource.
Module ReadRequest.
Record t (T : Type) := mk { Config : T }.
Arguments mk {T} _.
Arguments Config {T} _.
End ReadRequest.
End datasource.

(** ** Handlers

    The world a handler runs in: the response it is filling in, and the
    requests it has passed to [HttpClient.Do], oldest first. *)
Module World.
Record t (T : Type) := mk { resp : Response.t T; sent : list http.Request.t }.
Arguments mk {T} _ _.
Arguments resp {T} _.
Arguments sent {T} _.
End World.

Inductive step (T A : Type) : Type :=
| Next (a : A) (w : World.t T)    (* falls through to the next statement *)
| Return (w : World.t T)          (* [return] *)
| Panic (w : World.t T).          (* run-time panic *)
Arguments Next {T A} a w.
Arguments Return {T A} w.
Arguments Panic {T A} w.

Definition handler (T A : Type) : Type := World.t T -> step T A.

Definition pure {T A} (a : A) : handler T A := fun w => Next a w.

Definition bind {T A B} (h : handler T A) (k : A -> handler T B) : handler T B :=
  fun w =>
    match h w with
    | Next a w' => k a w'
    | Return w' => Return w'
    | Panic w' => Panic w'
    end.

Notation "'do' x <- h ;; k" := (bind h (fun x => k))
  (at level 10, x name, h at level 99, k at level 200).
Notation "'run' h ;; k" := (bind h (fun _ => k))
  (at level 10, h at level 99, k at level 200).

Definition return_ {T A} : handler T A := fun w => Return w.
Definition panic {T A} : handler T A := fun w => Panic w.

(** [resp.Diagnostics.Append(ds...)] *)
Definition Append {T} (ds : diag.Diagnostics) : handler T unit :=
  fun w =>
    Next tt (World.mk
               (Response.mk (Response.Diagnostics (World.resp w) ++ ds)%list
                            (Response.State (World.resp w)))
               (World.sent w)).

(** [resp.Diagnostics.AddError(summary, detail)] *)
Definition AddError {T} (k : diag.Kind) (summary detail : string) : handler T unit :=
  Append [diag.NewErrorDiagnostic k summary detail].

(** [resp.Diagnostics.HasError()] *)
Definition HasError {T} : handler T bool :=
  fun w => Next (diag.HasError (Response.Diagnostics (World.resp w))) w.

(** [resp.State.RemoveResource(ctx)] *)
Definition RemoveResource {T} : handler T unit :=
  fun w =>
    Next tt (World.mk (Response.mk (Response.Diagnostics (World.resp w)) None)
                      (World.sent w)).

(** [resp.State.Set(ctx, &data)], which yields its diagnostics. *)
Definition State_Set {T} (data : T) : handler T diag.Diagnostics :=
  fun w =>
    Next [] (World.mk (Response.mk (Response.Diagnostics (World.resp w)) (Some data))
                      (World.sent w)).

(** [client.Do(httpReq)]: the request goes out, the client answers. *)
Definition Do {T} (c : http.Client.t) (httpReq : http.Request.t)
    : handler T (result http.Response.t) :=
  fun w =>
    Next (http.Client.Do c httpReq)
         (World.mk (World.resp w) (World.sent w ++ [httpReq])%list).

(** How a call ends. *)
Inductive outcome (T : Type) : Type :=
| Finished (resp : Response.t T) (sent : list http.Request.t)
| Panicked (sent : list http.Request.t).
Arguments Finished {T} resp sent.
Arguments Panicked {T} sent.

(** Calling a handler with the response the host has prepared. *)
Definition call {T} (h : handler T unit) (resp : Response.t T) : outcome T :=
  match h (World.mk resp []) with
  | Next _ w | Return w => Finished (World.resp w) (World.sent w)
  | Panic w => Panicked (World.sent w)
  end.

(** ** terraform-plugin-framework-validators, as far as the schemas use them

    A validator inspects a known configuration value and reports an
    error diagnostic when it rejects it; null and unknown values pass. *)
Module validatordiag.
Definition InvalidAttributeValueDiagnostic (path description value : string)
    : diag.Diagnostic.t :=
  diag.NewErrorDiagnostic diag.validation "Invalid Attribute Value"
    ("Attribute " +:+ path +:+ " " +:+ description +:+ ", got: " +:+ value).
End validatordiag.

Module listvalidator.
Inductive t : Type :=
| IsRequired
| SizeAtMost (n : Z).

(** A list block without any configured block reaches the validators
    as a null list. *)
Definition Validate {A} (v : t) (path : string) (l : list A) : diag.Diagnostics :=
  match v with
  | IsRequired =>
      match l with
      | [] => [validatordiag.InvalidAttributeValueDiagnostic path "must have a configuration value" "null"]
      | _ => []
      end
  | SizeAtMost n =>
      match l with
      | [] => []
      | _ =>
          if n <? Z.of_nat (length l)
          then [validatordiag.InvalidAttributeValueDiagnostic path
                  "list must contain at most the allowed number of elements" "more"]
          else []
      end
  end.
End listvalidator.

Module stringvalidator.
Inductive t : Type :=
| OneOf (values : list string)
| Any (validators : list t).

(** [Any] accepts as soon as one of its validators reports no error,
    and otherwise reports what all of them said. *)
Fixpoint ValidateString (v : t) (path : string) (s : string) : diag.Diagnostics :=
  match v with
  | OneOf values =>
      if existsb (String.eqb s) values then []
      else [validatordiag.InvalidAttributeValueDiagnostic path "value must be one of the allowed values" s]
  | Any validators =>
      let all := List.map (fun sub => ValidateString sub path s) validators in
      if existsb (fun ds => negb (diag.HasError ds)) all then []
      else List.concat all
  end.

Definition Validate (v : t) (path : string) (x : types.String) : diag.Diagnostics :=
  match x with
  | types.Known s => ValidateString v path s
  | _ => []
  end.
End stringvalidator.

Module float64validator.
Inductive t : Type :=
| Between (min max : float64).

(** [if value < v.min || value > v.max] *)
Definition Validate (v : t) (path : string) (x : types.Float64) : diag.Diagnostics :=
  match x with
  | types.Known value =>
      match v with
      | Between min max =>
          if float64_lt (float64_of_finite value) min
             || float64_gt (float64_of_finite value) max
          then [validatordiag.InvalidAttributeValueDiagnostic path "value must be between the bounds" "out of range"]
          else []
      end
  | _ => []
  end.
End float64validator.

(** The float64 constants of the sources. *)
Definition float64_1 : float64 := Eval cbv in float64_of_Z 1.
Definition float64_100 : float64 := Eval cbv in float64_of_Z 100.

Definition nl : string := String (ascii_of_N 10) EmptyString.

(** ** internal/provider *)
Module provider.

(** [r.client] is nil until [Configure] has run; dereferencing it
    then panics. *)
Definition deref {T} (client : option clients.Client.t)
    : handler T clients.Client.t :=
  match client with
  | Some c => pure c
  | None => panic
  end.

(** The request a handler builds.  On failure [httpReq] is nil and the
    [httpReq.URL.String()] of the next statement panics, before the
    [err != nil] test is reached. *)
Definition newRequest {T} (parses : string -> bool) (method url : string)
    (body : json.Bytes) : handler T http.Request.t :=
  match http.NewRequestWithContext parses method url body with
  | Ok httpReq => pure httpReq
  | Err _ => panic
  end.

Definition transportDetail (err : error) : string :=
  "An unexpected error occurred while attempting to refresh resource state. "
  +:+ "Please retry the operation or report this issue to the provider developers."
  +:+ nl +:+ nl +:+ "HTTP Error: " +:+ err.

Definition decodeDetail (err : error) : string :=
  "An unexpected error occurred while parsing the resource read response. "
  +:+ "Please report this issue to the provider developers." +:+ nl +:+ nl
  +:+ "JSON Error: " +:+ err.

Definition marshalDetail (err : error) : string :=
  "An unexpected error occurred while marshalling the resource create request. "
  +:+ "Please report this issue to the provider developers." +:+ nl +:+ nl
  +:+ "JSON Error: " +:+ err.

Module MovementStepsModel.
Record t := mk {
  Angle : types.Int64;
  Direction : types.String;
  Distance : types.Float64 }.
End MovementStepsModel.

Module MovementResourceModel.
Record t := mk {
  Name : types.String;
  Persist : types.Bool;
  Steps : list MovementStepsModel.t }.
End MovementResourceModel.

Module MovementResource.
Record t := mk { client : option clients.Client.t }.

(** [resp.TypeName = req.ProviderTypeName + "_movement"] *)
Definition Metadata (ProviderTypeName : string) : string :=
  ProviderTypeName +:+ "_movement".

(** The validators that [Schema] attaches to the [steps] block and
    to the attributes of a step. *)
Module Schema.
Definition steps : list listvalidator.t :=
  [ listvalidator.IsRequired; listvalidator.SizeAtMost 50 ].
Definition direction : list stringvalidator.t :=
  [ stringvalidator.Any [ stringvalidator.OneOf ["forward"; "backward"] ] ].
Definition distance : list float64validator.t :=
  [ float64validator.Between float64_1 float64_100 ].
End Schema.

Definition Configure (ProviderData : option clients.Client.t) (r : t) : t :=
  match ProviderData with
  | None => r
  | Some client => mk (Some client)
  end.

Definition toItem (step : MovementStepsModel.t) : model.MovementStepItem.t :=
  model.MovementStepItem.mk
    (types.ValueInt64 (MovementStepsModel.Angle step))
    (types.ValueString (MovementStepsModel.Direction step))
    (types.ValueFloat64 (MovementStepsModel.Distance step)).

(** [Steps: make([]model.MovementStepItem, len(data.Steps))] followed
    by [for i, step := range data.Steps { createReq.Steps[i] = ... }] *)
Definition convertSteps (steps : list MovementStepsModel.t)
    : list model.MovementStepItem.t :=
  foldl (fun acc '(i, step) => <[ i := toItem step ]> acc)
        (replicate (length steps) model.MovementStepItem.zero)
        (zip (seq 0 (length steps)) steps).

Definition Create (parses : string -> bool) (r : t)
    (req : resource.CreateRequest.t MovementResourceModel.t)
    : handler MovementResourceModel.t unit :=
  let '(diags, data) := tfsdk.Get (resource.CreateRequest.Plan req) in
  run Append diags ;;
  do failed <- HasError ;;
  if failed then return_ else
  let createReq :=
    model.MovementRequest.mk
      (types.ValueString (MovementResourceModel.Name data))
      (types.ValueBool (MovementResourceModel.Persist data))
      (convertSteps (MovementResourceModel.Steps data)) in
  (* httpReqBody, err := json.Marshal(createReq): the error is
     reported and the handler goes on with a nil body *)
  do httpReqBody <-
    (match model.MovementRequest.encode createReq with
     | Ok v => pure (json.Doc v)
     | Err err =>
         run AddError diag.encode "Unable to Create Resource" (marshalDetail err) ;;
         pure json.Empty
     end) ;;
  do client <- deref (client r) ;;
  do httpReq <- newRequest parses http.MethodPost
    (clients.ClientConfig.Address (clients.Client.Config client) +:+ "/v1/movement")
    httpReqBody ;;
  do res <- Do (clients.Client.HttpClient client) httpReq ;;
  match res with
  | Err err =>
      run AddError diag.transport "Unable to Refresh Resource" (transportDetail err) ;;
      return_
  | Ok httpResp =>
      if http.Response.StatusCode httpResp =? http.StatusNotFound
      then run RemoveResource ;; return_
      else
        match json.Decode model.MovementResponse.decode model.MovementResponse.zero
                (http.Response.Body httpResp) with
        | Err err =>
            run AddError diag.decode "Unable to Refresh Resource" (decodeDetail err) ;;
            return_
        | Ok readResp =>
            do diags <- State_Set data ;;
            Append diags
        end
  end.

Definition Read (parses : string -> bool) (r : t)
    (req : resource.ReadRequest.t MovementResourceModel.t)
    : handler MovementResourceModel.t unit :=
  let '(diags, data) := tfsdk.Get (resource.ReadRequest.State req) in
  run Append diags ;;
  do failed <- HasError ;;
  if failed then return_ else
  do client <- deref (client r) ;;
  do httpReq <- newRequest parses http.MethodGet
    (clients.ClientConfig.Address (clients.Client.Config client) +:+ "/v1/movement")
    json.Empty ;;
  do res <- Do (clients.Client.HttpClient client) httpReq ;;
  match res with
  | Err err =>
      run AddError diag.transport "Unable to Create Resource" (transportDetail err) ;;
      return_
  | Ok httpResp =>
      if http.Response.StatusCode httpResp =? http.StatusNotFound
      then run RemoveResource ;; return_
      else
        match json.Decode model.MovementResponse.decode model.MovementResponse.zero
                (http.Response.Body httpResp) with
        | Err err =>
            run AddError diag.decode "Unable to Create Resource" (decodeDetail err) ;;
            return_
        | Ok readResp =>
            do diags <- State_Set data ;;
            Append diags
        end
  end.

Definition Update (r : t)
    (req : resource.UpdateRequest.t MovementResourceModel.t)
    : handler MovementResourceModel.t unit :=
  let '(diags, data) := tfsdk.Get (resource.UpdateRequest.Plan req) in
  run Append diags ;;
  do failed <- HasError ;;
  if failed then return_ else
  do diags <- State_Set data ;;
  Append diags.

Definition Delete (parses : string -> bool) (r : t)
    (req : resource.DeleteRequest.t MovementResourceModel.t)
    : handler MovementResourceModel.t unit :=
  let '(diags, data) := tfsdk.Get (resource.DeleteRequest.State req) in
  run Append diags ;;
  do failed <- HasError ;;
  if failed then return_ else
  do client <- deref (client r) ;;
  do httpReq <- newRequest parses http.MethodDelete
    (clients.ClientConfig.Address (clients.Client.Config client) +:+ "/v1/movement")
    json.Empty ;;
  do res <- Do (clients.Client.HttpClient client) httpReq ;;
  match res with
  | Err err =>
      run AddError diag.transport "Unable to Delete Resource" (transportDetail err) ;;
      return_
  | Ok httpResp =>
      if http.Response.StatusCode httpResp =? http.StatusNotFound
      then run RemoveResource ;; return_
      else
        match json.Decode model.MovementResponse.decode model.MovementResponse.zero
                (http.Response.Body httpResp) with
        | Err err =>
            run AddError diag.decode "Unable to Delete Resource" (decodeDetail err) ;;
            return_
        | Ok readResp => pure tt
        end
  end.
End MovementResource.

(** [NewMovementResource] returns a component whose client is still nil. *)
Definition NewMovementResource : MovementResource.t := MovementResource.mk None.

(** *** The read-only data sources *)

Module MovementLockDataSourceModel.
Record t := mk { Locked : types.Bool }.
End MovementLockDataSourceModel.

Module MovementLockDataSource.
Record t := mk { client : option clients.Client.t }.

(** [resp.TypeName = req.ProviderTypeName + "_movement_lock"] *)
Definition Metadata (ProviderTypeName : string) : string :=
  ProviderTypeName +:+ "_movement_lock".

Definition Configure (ProviderData : option clients.Client.t) (d : t) : t :=
  match ProviderData with
  | None => d
  | Some client => mk (Some client)
  end.

Definition Read (parses : string -> bool) (d : t)
    (req : datasource.ReadRequest.t MovementLockDataSourceModel.t)
    : handler MovementLockDataSourceModel.t unit :=
  let '(diags, data) := tfsdk.Get (datasource.ReadRequest.Config req) in
  run Append diags ;;
  do failed <- HasError ;;
  if failed then return_ else
  do client <- deref (client d) ;;
  do httpReq <- newRequest parses http.MethodGet
    (clients.ClientConfig.Address (clients.Client.Config client) +:+ "/v1/movement/lock")
    json.Empty ;;
  do res <- Do (clients.Client.HttpClient client) httpReq ;;
  match res with
  | Err err =>
      run AddError diag.transport "Unable to Refresh Resource" (transportDetail err) ;;
      return_
  | Ok httpResp =>
      if http.Response.StatusCode httpResp =? http.StatusNotFound
      then run RemoveResource ;; return_
      else
        match json.Decode model.MovementLockResponse.decode model.MovementLockResponse.zero
                (http.Response.Body httpResp) with
        | Err err =>
            run AddError diag.decode "Unable to Refresh Resource" (decodeDetail err) ;;
            return_
        | Ok readResp =>
            let data := MovementLockDataSourceModel.mk
                          (types.BoolValue (model.MovementLockResponse.Locked readResp)) in
            do diags <- State_Set data ;;
            Append diags
        end
  end.
End MovementLockDataSource.

(** [NewMovementLockDataSource] returns a component whose client is still nil. *)
Definition NewMovementLockDataSource : MovementLockDataSource.t := MovementLockDataSource.mk None.

Module HealthDataSourceModel.
Record t := mk { Healthy : types.Bool }.
End HealthDataSourceModel.

Module HealthDataSource.
Record t := mk { client : option clients.Client.t }.

(** [resp.TypeName = req.ProviderTypeName + "_health"] *)
Definition Metadata (ProviderTypeName : string) : string :=
  ProviderTypeName +:+ "_health".

Definition Configure (ProviderData : option clients.Client.t) (d : t) : t :=
  match ProviderData with
  | None => d
  | Some client => mk (Some client)
  end.

Definition Read (parses : string -> bool) (d : t)
    (req : datasource.ReadRequest.t HealthDataSourceModel.t)
    : handler HealthDataSourceModel.t unit :=
  let '(diags, data) := tfsdk.Get (datasource.ReadRequest.Config req) in
  run Append diags ;;
  do failed <- HasError ;;
  if failed then return_ else
  do client <- deref (client d) ;;
  do httpReq <- newRequest parses http.MethodGet
    (clients.ClientConfig.Address (clients.Client.Config client) +:+ "/v1/healthz")
    json.Empty ;;
  do res <- Do (clients.Client.HttpClient client) httpReq ;;
  match res with
  | Err err =>
      run AddError diag.transport "Unable to Refresh Resource" (transportDetail err) ;;
      return_
  | Ok httpResp =>
      if http.Response.StatusCode httpResp =? http.StatusNotFound
      then run RemoveResource ;; return_
      else
        match json.Decode model.HealthzResponse.decode model.HealthzResponse.zero
                (http.Response.Body httpResp) with
        | Err err =>
            run AddError diag.decode "Unable to Refresh Resource" (decodeDetail err) ;;
            return_
        | Ok readResp =>
            let data := HealthDataSourceModel.mk
                          (types.BoolValue (model.HealthzResponse.Healthy readResp)) in
            do diags <- State_Set data ;;
            Append diags
        end
  end.
End HealthDataSource.

(** [NewHealthDataSource] returns a component whose client is still nil. *)
Definition NewHealthDataSource : HealthDataSource.t := HealthDataSource.mk None.

Module ReadyDataSourceModel.
Record t := mk { Ready : types.Bool }.
End ReadyDataSourceModel.

Module ReadyDataSource.
Record t := mk { client : option clients.Client.t }.

(** [resp.TypeName = req.ProviderTypeName + "_ready"] *)
Definition Metadata (ProviderTypeName : string) : string :=
  ProviderTypeName +:+ "_ready".

Definition Configure (ProviderData : option clients.Client.t) (d : t) : t :=
  match ProviderData with
  | None => d
  | Some client => mk (Some client)
  end.

Definition Read (parses : string -> bool) (d : t)
    (req : datasource.ReadRequest.t ReadyDataSourceModel.t)
    : handler ReadyDataSourceModel.t unit :=
  let '(diags, data) := tfsdk.Get (datasource.ReadRequest.Config req) in
  run Append diags ;;
  do failed <- HasError ;;
  if failed then return_ else
  do client <- deref (client d) ;;
  do httpReq <- newRequest parses http.MethodGet
    (clients.ClientConfig.Address (clients.Client.Config client) +:+ "/v1/readyz")
    json.Empty ;;
  do res <- Do (clients.Client.HttpClient client) httpReq ;;
  match res with
  | Err err =>
      run AddError diag.transport "Unable to Refresh Resource" (transportDetail err) ;;
      return_
  | Ok httpResp =>
      if http.Response.StatusCode httpResp =? http.StatusNotFound
      then run RemoveResource ;; return_
      else
        match json.Decode model.ReadyzResponse.decode model.ReadyzResponse.zero
                (http.Response.Body httpResp) with
        | Err err =>
            run AddError diag.decode "Unable to Refresh Resource" (decodeDetail err) ;;
            return_
        | Ok readResp =>
            let data := ReadyDataSourceModel.mk
                          (types.BoolValue (model.ReadyzResponse.Ready readResp)) in
            do diags <- State_Set data ;;
            Append diags
        end
  end.
End ReadyDataSource.

(** [NewReadyDataSource] returns a component whose client is still nil. *)
Definition NewReadyDataSource : ReadyDataSource.t := ReadyDataSource.mk None.

Module BatteryDataSourceModel.
Record t := mk { Value : types.Int64; Unit : types.String }.
End BatteryDataSourceModel.

Module BatteryDataSource.
Record t := mk { client : option clients.Client.t }.

(** [resp.TypeName = req.ProviderTypeName + "_battery"] *)
Definition Metadata (ProviderTypeName : string) : string :=
  ProviderTypeName +:+ "_battery".

Definition Configure (ProviderData : option clients.Client.t) (d : t) : t :=
  match ProviderData with
  | None => d
  | Some client => mk (Some client)
  end.

Definition Read (parses : string -> bool) (d : t)
    (req : datasource.ReadRequest.t BatteryDataSourceModel.t)
    : handler BatteryDataSourceModel.t unit :=
  let '(diags, data) := tfsdk.Get (datasource.ReadRequest.Config req) in
  run Append diags ;;
  do failed <- HasError ;;
  if failed then return_ else
  do client <- deref (client d) ;;
  do httpReq <- newRequest parses http.MethodGet
    (clients.ClientConfig.Address (clients.Client.Config client) +:+ "/v1/device/battery")
    json.Empty ;;
  do res <- Do (clients.Client.HttpClient client) httpReq ;;
  match res with
  | Err err =>
      run AddError diag.transport "Unable to Refresh Resource" (transportDetail err) ;;
      return_
  | Ok httpResp =>
      if http.Response.StatusCode httpResp =? http.StatusNotFound
      then run RemoveResource ;; return_
      else
        match json.Decode model.BatteryResponse.decode model.BatteryResponse.zero
                (http.Response.Body httpResp) with
        | Err err =>
            run AddError diag.decode "Unable to Refresh Resource" (decodeDetail err) ;;
            return_
        | Ok readResp =>
            (* data.Unit = ...; data.Value = ... *)
            let data := BatteryDataSourceModel.mk
                          (BatteryDataSourceModel.Value data)
                          (types.StringValue (model.BatteryResponse.Unit readResp)) in
            let data := BatteryDataSourceModel.mk
                          (types.Int64Value (model.BatteryResponse.Value readResp))
                          (BatteryDataSourceModel.Unit data) in
            do diags <- State_Set data ;;
            Append diags
        end
  end.
End BatteryDataSource.

(** [NewBatteryDataSource] returns a component whose client is still nil. *)
Definition NewBatteryDataSource : BatteryDataSource.t := BatteryDataSource.mk None.

Module WifiNetworkModel.
Record t := mk {
  Encrypted : types.Bool;
  Rssi : types.Float64;
  Ssid : types.String }.
End WifiNetworkModel.

Module WifiNetworksDataSourceModel.
Record t := mk { Networks : list WifiNetworkModel.t }.
End WifiNetworksDataSourceModel.

Module WifiNetworksDataSource.
Record t := mk { client : option clients.Client.t }.

(** [resp.TypeName = req.ProviderTypeName + "_wifi_networks"] *)
Definition Metadata (ProviderTypeName : string) : string :=
  ProviderTypeName +:+ "_wifi_networks".

Definition Configure (ProviderData : option clients.Client.t) (d : t) : t :=
  match ProviderData with
  | None => d
  | Some client => mk (Some client)
  end.

Definition toModel (item : model.WifiNetworkItem.t) : WifiNetworkModel.t :=
  WifiNetworkModel.mk
    (types.BoolValue (model.WifiNetworkItem.Encrypted item))
    (types.Float64Value (model.WifiNetworkItem.Rssi item))
    (types.StringValue (model.WifiNetworkItem.Ssid item)).

(** [networks = make([]WifiNetworkModel, len(readResp))] followed by
    [for i := range readResp { networks[i] = ... }] *)
Definition convertNetworks (readResp : list model.WifiNetworkItem.t)
    : list WifiNetworkModel.t :=
  foldl (fun acc '(i, item) => <[ i := toModel item ]> acc)
        (replicate (length readResp)
           (WifiNetworkModel.mk types.Null types.Null types.Null))
        (zip (seq 0 (length readResp)) readResp).

Definition Read (parses : string -> bool) (d : t)
    (req : datasource.ReadRequest.t WifiNetworksDataSourceModel.t)
    : handler WifiNetworksDataSourceModel.t unit :=
  let '(diags, data) := tfsdk.Get (datasource.ReadRequest.Config req) in
  run Append diags ;;
  do failed <- HasError ;;
  if failed then return_ else
  do client <- deref (client d) ;;
  do httpReq <- newRequest parses http.MethodGet
    (clients.ClientConfig.Address (clients.Client.Config client) +:+ "/v1/device/wifi")
    json.Empty ;;
  do res <- Do (clients.Client.HttpClient client) httpReq ;;
  match res with
  | Err err =>
      run AddError diag.transport "Unable to Refresh Resource" (transportDetail err) ;;
      return_
  | Ok httpResp =>
      if http.Response.StatusCode httpResp =? http.StatusNotFound
      then run RemoveResource ;; return_
      else
        match json.Decode
                (json.decodeSlice "[]model.WifiNetworkItem" model.WifiNetworkItem.decode
                   model.WifiNetworkItem.zero)
                [] (http.Response.Body httpResp) with
        | Err err =>
            run AddError diag.decode "Unable to Refresh Resource" (decodeDetail err) ;;
            return_
        | Ok readResp =>
            let data := WifiNetworksDataSourceModel.mk (convertNetworks readResp) in
            do diags <- State_Set data ;;
            Append diags
        end
  end.
End WifiNetworksDataSource.

(** [NewWifiNetworksDataSource] returns a component whose client is still nil. *)
Definition NewWifiNetworksDataSource : WifiNetworksDataSource.t := WifiNetworksDataSource.mk None.

Module DeviceResponseIdentifiersModel.
Record t := mk { Long : types.String; Short : types.String }.
End DeviceResponseIdentifiersModel.

Module DeviceResponseVersionsModel.
Record t := mk { API : types.String; APP : types.String }.
End DeviceResponseVersionsModel.

Module DeviceDataSourceModel.
Record t := mk {
  Name : types.String;
  Uptime : types.Float64;
  Identifiers : option DeviceResponseIdentifiersModel.t;
  Versions : option DeviceResponseVersionsModel.t;
  Features : types.Map }.
End DeviceDataSourceModel.

Definition expandDeviceResponseIdentifiersModel
    (in_ : option model.DeviceResponseIdentifiers.t)
    : option DeviceResponseIdentifiersModel.t :=
  match in_ with
  | None => None
  | Some i =>
      Some (DeviceResponseIdentifiersModel.mk
              (types.StringValue (model.DeviceResponseIdentifiers.Long i))
              (types.StringValue (model.DeviceResponseIdentifiers.Short i)))
  end.

Definition expandDeviceResponseVersionsModel
    (in_ : option model.DeviceResponseVersions.t)
    : option DeviceResponseVersionsModel.t :=
  match in_ with
  | None => None
  | Some i =>
      Some (DeviceResponseVersionsModel.mk
              (types.StringValue (model.DeviceResponseVersions.Api i))
              (types.StringValue (model.DeviceResponseVersions.App i)))
  end.

Module DeviceDataSource.
Record t := mk { client : option clients.Client.t }.

(** [resp.TypeName = req.ProviderTypeName + "_device"] *)
Definition Metadata (ProviderTypeName : string) : string :=
  ProviderTypeName +:+ "_device".

Definition Configure (ProviderData : option clients.Client.t) (d : t) : t :=
  match ProviderData with
  | None => d
  | Some client => mk (Some client)
  end.

Definition Read (parses : string -> bool) (d : t)
    (req : datasource.ReadRequest.t DeviceDataSourceModel.t)
    : handler DeviceDataSourceModel.t unit :=
  let '(diags, data) := tfsdk.Get (datasource.ReadRequest.Config req) in
  run Append diags ;;
  do failed <- HasError ;;
  if failed then return_ else
  do client <- deref (client d) ;;
  do httpReq <- newRequest parses http.MethodGet
    (clients.ClientConfig.Address (clients.Client.Config client) +:+ "/v1/device/status")
    json.Empty ;;
  do res <- Do (clients.Client.HttpClient client) httpReq ;;
  match res with
  | Err err =>
      run AddError diag.transport "Unable to Refresh Resource" (transportDetail err) ;;
      return_
  | Ok httpResp =>
      if http.Response.StatusCode httpResp =? http.StatusNotFound
      then run RemoveResource ;; return_
      else
        match json.Decode model.DeviceResponse.decode model.DeviceResponse.zero
                (http.Response.Body httpResp) with
        | Err err =>
            run AddError diag.decode "Unable to Refresh Resource" (decodeDetail err) ;;
            return_
        | Ok readResp =>
            (* data.Name, data.Uptime, data.Identifiers and
               data.Versions are assigned; data.Features is not *)
            let data :=
              DeviceDataSourceModel.mk
                (types.StringValue (model.DeviceResponse.Name readResp))
                (types.Float64Value (model.DeviceResponse.Uptime readResp))
                (expandDeviceResponseIdentifiersModel (model.DeviceResponse.Identifiers readResp))
                (expandDeviceResponseVersionsModel (model.DeviceResponse.Versions readResp))
                (DeviceDataSourceModel.Features data) in
            do diags <- State_Set data ;;
            Append diags
        end
  end.
End DeviceDataSource.

(** [NewDeviceDataSource] returns a component whose client is still nil. *)
Definition NewDeviceDataSource : DeviceDataSource.t := DeviceDataSource.mk None.

(** *** The provider *)

Module PathfinderProviderModel.
Record t := mk { Address : types.String; ApiKey : types.String }.
End PathfinderProviderModel.

Module ConfigureResponse.
Record t := mk {
  Diagnostics : diag.Diagnostics;
  DataSourceData : option clients.Client.t;
  ResourceData : option clients.Client.t }.
End ConfigureResponse.

Module PathfinderProvider.
Record t := mk { version : string }.

(** [Metadata] sets the type name and the version of the provider. *)
Definition Metadata (p : t) : string * string := ("pathfinder", version p).

(** [Configure]: the client configuration is built from the address
    alone; [api_key] only goes to the (masked) log fields. *)
Definition Configure (DefaultClient : http.Client.t)
    (config : PathfinderProviderModel.t) (resp : ConfigureResponse.t)
    : ConfigureResponse.t :=
  let '(diags, providerConfig) := tfsdk.Get config in
  let resp := ConfigureResponse.mk
                (ConfigureResponse.Diagnostics resp ++ diags)%list
                (ConfigureResponse.DataSourceData resp)
                (ConfigureResponse.ResourceData resp) in
  if diag.HasError (ConfigureResponse.Diagnostics resp) then resp
  else
    let cfg := clients.ClientConfig.mk
                 (types.ValueString (PathfinderProviderModel.Address providerConfig))
                 "" in
    match clients.NewClient DefaultClient cfg with
    | Err err =>
        ConfigureResponse.mk
          (ConfigureResponse.Diagnostics resp ++
           [diag.NewErrorDiagnostic diag.configuration "Client Initialization Error"
              ("Unable to create Pathfinder API client: " +:+ err)])%list
          (ConfigureResponse.DataSourceData resp)
          (ConfigureResponse.ResourceData resp)
    | Ok client =>
        ConfigureResponse.mk (ConfigureResponse.Diagnostics resp)
          (Some client) (Some client)
    end.
End PathfinderProvider.

(** [New(version)] *)
Definition New (version : string) : PathfinderProvider.t :=
  PathfinderProvider.mk version.

(** The type names that [Resources] and [DataSources] register, in
    their order, under a provider type name. *)
Definition Resources (ProviderTypeName : string) : list string :=
  [ MovementResource.Metadata ProviderTypeName ].

Definition DataSources (ProviderTypeName : string) : list string :=
  [ DeviceDataSource.Metadata ProviderTypeName;
    BatteryDataSource.Metadata ProviderTypeName;
    WifiNetworksDataSource.Metadata ProviderTypeName;
    HealthDataSource.Metadata ProviderTypeName;
    ReadyDataSource.Metadata ProviderTypeName;
    MovementLockDataSource.Metadata ProviderTypeName ].

End provider.

(** ** The host around the handlers

    What the plugin framework and Terraform do before and after they
    call into the provider: schema defaults and validators run on the
    configuration before a change is planned or applied, a create that
    reports no error must have set a state, and a delete that reports
    no error has its state cleared by the framework. *)
Module host.
Import provider.

(** The validators of [MovementResource.Schema], run over a
    configuration: those of the block on the list, those of the
    nested attributes on every step. *)
Definition validateStep (step : MovementStepsModel.t) : diag.Diagnostics :=
  (List.concat (List.map (fun v => stringvalidator.Validate v "steps.direction"
                                     (MovementStepsModel.Direction step))
                         MovementResource.Schema.direction)
   ++ List.concat (List.map (fun v => float64validator.Validate v "steps.distance"
                                        (MovementStepsModel.Distance step))
                            MovementResource.Schema.distance))%list.

Definition ValidateResourceConfig (config : MovementResourceModel.t) : diag.Diagnostics :=
  (List.concat (List.map (fun v => listvalidator.Validate v "steps"
                                     (MovementResourceModel.Steps config))
                         MovementResource.Schema.steps)
   ++ List.concat (List.map validateStep (MovementResourceModel.Steps config)))%list.

(** [Default: booldefault.StaticBool(true)] on [persist]. *)
Definition plan (config : MovementResourceModel.t) : MovementResourceModel.t :=
  MovementResourceModel.mk
    (MovementResourceModel.Name config)
    (match MovementResourceModel.Persist config with
     | types.Null => types.Known true
     | p => p
     end)
    (MovementResourceModel.Steps config).

(** What the framework adds when [Create] has returned without an
    error and has left the state null. *)
Definition MissingResourceStateAfterCreate : diag.Diagnostic.t :=
  diag.NewErrorDiagnostic diag.framework "Missing Resource State After Create"
    ("The Terraform Provider unexpectedly returned no resource state after having "
     +:+ "no errors in the resource creation. This is always an issue in the "
     +:+ "Terraform Provider and should be reported to the provider developers."
     +:+ nl +:+ nl
     +:+ "The resource may have been successfully created, but Terraform is not "
     +:+ "tracking it. Applying the configuration again with no other action may "
     +:+ "result in duplicate resource errors.").

(** Creating a declared plan: a configuration that the validators
    reject is reported and [Create] is not called; otherwise [Create]
    runs on the planned values with an empty response and a null state,
    and a create that comes back with neither an error nor a state is
    turned into a failure. *)
Definition CreateResource (parses : string -> bool) (r : MovementResource.t)
    (config : MovementResourceModel.t) : outcome MovementResourceModel.t :=
  let diags := ValidateResourceConfig config in
  if diag.HasError diags then Finished (Response.mk diags None) []
  else
    match call (MovementResource.Create parses r (resource.CreateRequest.mk (plan config)))
               (Response.mk [] None) with
    | Finished resp sent =>
        match Response.State resp with
        | Some _ => Finished resp sent
        | None =>
            if diag.HasError (Response.Diagnostics resp) then Finished resp sent
            else Finished
                   (Response.mk
                      (Response.Diagnostics resp ++ [MissingResourceStateAfterCreate])%list
                      None)
                   sent
        end
    | Panicked sent => Panicked sent
    end.

(** Deleting: the response starts from the tracked state, and after
    [Delete] has returned without an error diagnostic the framework
    removes the state itself. *)
Definition DeleteResource (parses : string -> bool) (r : MovementResource.t)
    (tracked : MovementResourceModel.t) : outcome MovementResourceModel.t :=
  match call (MovementResource.Delete parses r (resource.DeleteRequest.mk tracked))
             (Response.mk [] (Some tracked)) with
  | Finished resp sent =>
      if diag.HasError (Response.Diagnostics resp) then Finished resp sent
      else Finished (Response.mk (Response.Diagnostics resp) None) sent
  | Panicked sent => Panicked sent
  end.
End host.

(** ** The operations that talk to the device

    [PathfinderProvider.DataSources] registers six data sources and
    [PathfinderProvider.Resources] one resource; of its handlers
    [Update] alone sends nothing. *)
Module ops.
Import provider.

Inductive Probe : Type :=
| Device | Battery | WifiNetworks | Health | Ready | MovementLock.

Inductive t : Type :=
| ProbeRead (p : Probe)
| MovementCreate
| MovementRead
| MovementDelete.

(** The value an operation is called with and tracks. *)
Definition Model (op : t) : Type :=
  match op with
  | ProbeRead Device => DeviceDataSourceModel.t
  | ProbeRead Battery => BatteryDataSourceModel.t
  | ProbeRead WifiNetworks => WifiNetworksDataSourceModel.t
  | ProbeRead Health => HealthDataSourceModel.t
  | ProbeRead Ready => ReadyDataSourceModel.t
  | ProbeRead MovementLock => MovementLockDataSourceModel.t
  | MovementCreate | MovementRead | MovementDelete => MovementResourceModel.t
  end.

Definition handle (op : t) (parses : string -> bool)
    (client : option clients.Client.t) : Model op -> handler (Model op) unit :=
  match op with
  | ProbeRead Device => fun config =>
      DeviceDataSource.Read parses (DeviceDataSource.mk client)
        (datasource.ReadRequest.mk config)
  | ProbeRead Battery => fun config =>
      BatteryDataSource.Read parses (BatteryDataSource.mk client)
        (datasource.ReadRequest.mk config)
  | ProbeRead WifiNetworks => fun config =>
      WifiNetworksDataSource.Read parses (WifiNetworksDataSource.mk client)
        (datasource.ReadRequest.mk config)
  | ProbeRead Health => fun config =>
      HealthDataSource.Read parses (HealthDataSource.mk client)
        (datasource.ReadRequest.mk config)
  | ProbeRead Ready => fun config =>
      ReadyDataSource.Read parses (ReadyDataSource.mk client)
        (datasource.ReadRequest.mk config)
  | ProbeRead MovementLock => fun config =>
      MovementLockDataSource.Read parses (MovementLockDataSource.mk client)
        (datasource.ReadRequest.mk config)
  | MovementCreate => fun planned =>
      MovementResource.Create parses (MovementResource.mk client)
        (resource.CreateRequest.mk planned)
  | MovementRead => fun tracked =>
      MovementResource.Read parses (MovementResource.mk client)
        (resource.ReadRequest.mk tracked)
  | MovementDelete => fun tracked =>
      MovementResource.Delete parses (MovementResource.mk client)
        (resource.DeleteRequest.mk tracked)
  end.

Definition method (op : t) : string :=
  match op with
  | ProbeRead _ | MovementRead => http.MethodGet
  | MovementCreate => http.MethodPost
  | MovementDelete => http.MethodDelete
  end.

Definition path (op : t) : string :=
  match op with
  | ProbeRead Device => "/v1/device/status"
  | ProbeRead Battery => "/v1/device/battery"
  | ProbeRead WifiNetworks => "/v1/device/wifi"
  | ProbeRead Health => "/v1/healthz"
  | ProbeRead Ready => "/v1/readyz"
  | ProbeRead MovementLock => "/v1/movement/lock"
  | MovementCreate | MovementRead | MovementDelete => "/v1/movement"
  end.

(** The body of the create request: the encoded plan, or nothing when
    it does not encode. *)
Definition createBody (planned : MovementResourceModel.t) : json.Bytes :=
  match model.MovementRequest.encode
          (model.MovementRequest.mk
             (types.ValueString (MovementResourceModel.Name planned))
             (types.ValueBool (MovementResourceModel.Persist planned))
             (MovementResource.convertSteps (MovementResourceModel.Steps planned))) with
  | Ok v => json.Doc v
  | Err _ => json.Empty
  end.

Definition body (op : t) : Model op -> json.Bytes :=
  match op with
  | MovementCreate => createBody
  | ProbeRead Device | ProbeRead Battery | ProbeRead WifiNetworks
  | ProbeRead Health | ProbeRead Ready | ProbeRead MovementLock
  | MovementRead | MovementDelete => fun _ => json.Empty
  end.

Definition url (op : t) (c : clients.Client.t) : string :=
  clients.ClientConfig.Address (clients.Client.Config c) +:+ path op.

(** The one request of an operation. *)
Definition request (op : t) (c : clients.Client.t) (input : Model op) : http.Request.t :=
  http.Request.mk (method op) (url op c) [] (body op input).

(** The round trip of [op] completes with the response [httpResp]. *)
Definition answered (op : t) (parses : string -> bool) (c : clients.Client.t)
    (input : Model op) (httpResp : http.Response.t) : Prop :=
  parses (url op c) = true /\
  http.Client.Do (clients.Client.HttpClient c) (request op c input) = Ok httpResp.

(** Whether a response body decodes into the shape [op] expects. *)
Definition decodes (op : t) (b : json.Bytes) : bool :=
  match op with
  | ProbeRead Device =>
      is_Ok (json.Decode model.DeviceResponse.decode model.DeviceResponse.zero b)
  | ProbeRead Battery =>
      is_Ok (json.Decode model.BatteryResponse.decode model.BatteryResponse.zero b)
  | ProbeRead WifiNetworks =>
      is_Ok (json.Decode
               (json.decodeSlice "[]model.WifiNetworkItem" model.WifiNetworkItem.decode
                   model.WifiNetworkItem.zero)
               [] b)
  | ProbeRead Health =>
      is_Ok (json.Decode model.HealthzResponse.decode model.HealthzResponse.zero b)
  | ProbeRead Ready =>
      is_Ok (json.Decode model.ReadyzResponse.decode model.ReadyzResponse.zero b)
  | ProbeRead MovementLock =>
      is_Ok (json.Decode model.MovementLockResponse.decode model.MovementLockResponse.zero b)
  | MovementCreate | MovementRead | MovementDelete =>
      is_Ok (json.Decode model.MovementResponse.decode model.MovementResponse.zero b)
  end.

Definition isRead (op : t) : bool :=
  match op with
  | ProbeRead _ | MovementRead => true
  | MovementCreate | MovementDelete => false
  end.
End ops.

(** The success range of HTTP status codes. *)
Definition success (status : Z) : bool := (200 <=? status) && (status <=? 299).

(** * Scenarios and predicates *)

Import provider.

(** Unfolding a handler call down to the tests on the environment. *)
Ltac unfold_handlers :=
  cbv [ops.handle ops.request ops.url ops.method ops.path ops.body ops.answered
       DeviceDataSource.Read BatteryDataSource.Read WifiNetworksDataSource.Read
       HealthDataSource.Read ReadyDataSource.Read MovementLockDataSource.Read
       MovementResource.Create MovementResource.Read MovementResource.Delete
       MovementResource.Update
       DeviceDataSource.client BatteryDataSource.client WifiNetworksDataSource.client
       HealthDataSource.client ReadyDataSource.client MovementLockDataSource.client
       MovementResource.client
       tfsdk.Get datasource.ReadRequest.Config resource.CreateRequest.Plan
       resource.ReadRequest.State resource.DeleteRequest.State resource.UpdateRequest.Plan
       call bind pure return_ panic Append AddError HasError RemoveResource State_Set Do
       deref newRequest http.NewRequestWithContext
       World.resp World.sent Response.Diagnostics Response.State
       diag.HasError existsb app
       http.MethodGet http.MethodPost http.MethodDelete] in *.

(** A device that answers every request with the same response. *)
Definition always (status : Z) (b : json.Bytes) : http.Client.t :=
  http.Client.mk (fun _ => Ok (http.Response.mk status b)).

Definition rover (hc : http.Client.t) : clients.Client.t :=
  clients.Client.mk (clients.ClientConfig.mk "http://192.168.4.1:80" "") hc.

Definition anyURL : string -> bool := fun _ => true.

(** The body of the device's error envelope, [model.ErrorResponse]. *)
Definition errorBody : json.Bytes :=
  json.Doc (json.Object [ ("message", json.Str "internal error");
                          ("status", json.Num (json.Integer false 500)) ]).

(** The number of an integer literal that [float64] can take. *)
Definition finite64_of_Z (z : Z) : finite64 :=
  default (Zero64 false) (finite_of_float64 (float64_of_Z z)).

(** A body that is no JSON: the error page of a proxy, which starts
    with a tag. *)
Definition htmlBody : json.Bytes :=
  json.Malformed "invalid character '<' looking for beginning of value".

(** The example plan of the README, first step only. *)
Definition forward1 : MovementStepsModel.t :=
  MovementStepsModel.mk (types.Known 0) (types.Known "forward")
    (types.Known (finite64_of_Z 1)).

Definition examplePlan : MovementResourceModel.t :=
  MovementResourceModel.mk (types.Known "example") (types.Known true) [forward1].

(** An outcome that carries a diagnostic of kind [k]. *)
Definition reports {T} (k : diag.Kind) (o : outcome T) : Prop :=
  exists resp sent d,
    o = Finished resp sent /\ In d (Response.Diagnostics resp) /\
    diag.Diagnostic.Kind_ d = k.

(** The same client configuration in front of another device. *)
Definition withTransport (c : clients.Client.t) (hc : http.Client.t) : clients.Client.t :=
  clients.Client.mk (clients.Client.Config c) hc.

(** A device status as the API documents it, with one feature flag. *)
Definition statusBody : json.Bytes :=
  json.Doc (json.Object
    [ ("name", json.Str "pathfinder");
      ("uptime", json.Num (json.Integer false 12));
      ("identifiers", json.Object [ ("long", json.Str "wave-rover-0001");
                                    ("short", json.Str "0001") ]);
      ("versions", json.Object [ ("api", json.Str "v1"); ("app", json.Str "0.1.0") ]);
      ("features", json.Object [ ("lidar", json.Bool true) ]) ]).

Definition statusDecoded : model.DeviceResponse.t :=
  model.DeviceResponse.mk
    (<[ "lidar" := true ]> ∅)
    (Some (model.DeviceResponseIdentifiers.mk "wave-rover-0001" "0001"))
    "pathfinder"
    (finite64_of_Z 12)
    (Some (model.DeviceResponseVersions.mk "v1" "0.1.0")).

Definition noDevice : DeviceDataSourceModel.t :=
  DeviceDataSourceModel.mk types.Null types.Null None None types.Null.

(** The second step of the README's example plan, with a direction the
    schema does not allow. *)
Definition right1 : MovementStepsModel.t :=
  MovementStepsModel.mk (types.Known 90) (types.Known "right")
    (types.Known (finite64_of_Z 1)).

Definition readmePlan : MovementResourceModel.t :=
  MovementResourceModel.mk (types.Known "example") (types.Known true) [forward1; right1].

Definition movingBody : json.Bytes :=
  json.Doc (json.Object [("moving", json.Bool true)]).

(** A configuration that breaks a constraint of the schema: a distance
    under 1.0 or over 100.0, a direction other than forward and
    backward, or more than 50 steps. *)
Definition violates (config : MovementResourceModel.t) : Prop :=
  (exists step d,
      In step (MovementResourceModel.Steps config) /\
      MovementStepsModel.Distance step = types.Known d /\
      (float64_lt (float64_of_finite d) float64_1 = true \/
       float64_gt (float64_of_finite d) float64_100 = true))
  \/ (exists step s,
      In step (MovementResourceModel.Steps config) /\
      MovementStepsModel.Direction step = types.Known s /\
      s <> "forward" /\ s <> "backward")
  \/ (50 < length (MovementResourceModel.Steps config))%nat.

(** Structural equality on [float64], for checks by computation. *)
Definition float64_eqb (x y : float64) : bool :=
  match x, y with
  | S754_zero a, S754_zero b => Bool.eqb a b
  | S754_infinity a, S754_infinity b => Bool.eqb a b
  | S754_nan, S754_nan => true
  | S754_finite a m e, S754_finite b n f => Bool.eqb a b && Pos.eqb m n && Z.eqb e f
  | _, _ => false
  end.

(** The whole number [k] is the float with exponent [e] that it should
    be, and reading the integer literal [k] yields that float. *)
Definition whole_exact (e : Z) (k : Z) : bool :=
  float64_eqb (float64_of_Z k) (S754_finite false (Z.to_pos (k * 2 ^ (- e))) e).

(** A distance in the closed interval from 1.0 to 100.0. *)
Definition in_range (d : float64) : Prop :=
  float64_valid d = true /\ SFleb float64_1 d = true /\ SFleb d float64_100 = true.

(** A step as the schema accepts it once all its values are known. *)
Definition valid_step (step : MovementStepsModel.t) : Prop :=
  exists a s d,
    step = MovementStepsModel.mk (types.Known a) (types.Known s) (types.Known d) /\
    in_int64 a = true /\ (s = "forward" \/ s = "backward") /\
    in_range (float64_of_finite d).

Definition wire_ok (x : model.MovementStepItem.t) : Prop :=
  in_int64 (model.MovementStepItem.Angle x) = true /\
  in_range (float64_of_finite (model.MovementStepItem.Distance x)).

(** Reading a wire item back as declared values. *)
Definition fromItem (x : model.MovementStepItem.t) : MovementStepsModel.t :=
  MovementStepsModel.mk
    (types.Int64Value (model.MovementStepItem.Angle x))
    (types.StringValue (model.MovementStepItem.Direction x))
    (types.Float64Value (model.MovementStepItem.Distance x)).

Definition backward100 : MovementStepsModel.t :=
  MovementStepsModel.mk (types.Known 90) (types.Known "backward")
    (types.Known (finite64_of_Z 100)).

(** The summary under which an operation reports a failed round trip
    or an undecodable body. *)
Definition failureSummary (op : ops.t) : string :=
  match op with
  | ops.ProbeRead _ | ops.MovementCreate => "Unable to Refresh Resource"
  | ops.MovementRead => "Unable to Create Resource"
  | ops.MovementDelete => "Unable to Delete Resource"
  end.

(** What an operation has reported before its request goes out: the
    encode failure of a create, and nothing otherwise. *)
Definition reportedBefore (op : ops.t) : ops.Model op -> diag.Diagnostics :=
  match op with
  | ops.MovementCreate => fun planned =>
      match model.MovementRequest.encode
              (model.MovementRequest.mk
                 (types.ValueString (MovementResourceModel.Name planned))
                 (types.ValueBool (MovementResourceModel.Persist planned))
                 (MovementResource.convertSteps (MovementResourceModel.Steps planned))) with
      | Ok _ => []
      | Err err =>
          [diag.NewErrorDiagnostic diag.encode "Unable to Create Resource"
             (marshalDetail err)]
      end
  | ops.ProbeRead ops.Device | ops.ProbeRead ops.Battery | ops.ProbeRead ops.WifiNetworks
  | ops.ProbeRead ops.Health | ops.ProbeRead ops.Ready | ops.ProbeRead ops.MovementLock
  | ops.MovementRead | ops.MovementDelete => fun _ => []
  end.

(** The error with which the body of a response fails to decode. *)
Definition decodeError (op : ops.t) (b : json.Bytes) : option error :=
  let failure {T} (r : result T) : option error :=
    match r with Ok _ => None | Err err => Some err end in
  match op with
  | ops.ProbeRead ops.Device =>
      failure (json.Decode model.DeviceResponse.decode model.DeviceResponse.zero b)
  | ops.ProbeRead ops.Battery =>
      failure (json.Decode model.BatteryResponse.decode model.BatteryResponse.zero b)
  | ops.ProbeRead ops.WifiNetworks =>
      failure (json.Decode
                 (json.decodeSlice "[]model.WifiNetworkItem" model.WifiNetworkItem.decode
                   model.WifiNetworkItem.zero)
                 [] b)
  | ops.ProbeRead ops.Health =>
      failure (json.Decode model.HealthzResponse.decode model.HealthzResponse.zero b)
  | ops.ProbeRead ops.Ready =>
      failure (json.Decode model.ReadyzResponse.decode model.ReadyzResponse.zero b)
  | ops.ProbeRead ops.MovementLock =>
      failure (json.Decode model.MovementLockResponse.decode model.MovementLockResponse.zero b)
  | ops.MovementCreate | ops.MovementRead | ops.MovementDelete =>
      failure (json.Decode model.MovementResponse.decode model.MovementResponse.zero b)
  end.

(** A step that the validators of the schema let through: values that
    are null or unknown are not inspected. *)
Definition admissible_step (step : MovementStepsModel.t) : Prop :=
  match MovementStepsModel.Direction step with
  | types.Known s => s = "forward" \/ s = "backward"
  | _ => True
  end /\
  match MovementStepsModel.Distance step with
  | types.Known d =>
      float64_lt (float64_of_finite d) float64_1 = false /\
      float64_gt (float64_of_finite d) float64_100 = false
  | _ => True
  end.

Definition conforms (config : MovementResourceModel.t) : Prop :=
  MovementResourceModel.Steps config <> [] /\
  (length (MovementResourceModel.Steps config) <= 50)%nat /\
  Forall admissible_step (MovementResourceModel.Steps config).

(** The error envelope of the API, with any message and status. *)
Definition envelope (message : string) (status : json.Number) : json.Bytes :=
  json.Doc (json.Object [ ("message", json.Str message); ("status", json.Num status) ]).

(** * Properties *)

(** ** Absent objects *)

(** C7. For each of the six probes and for the movement read: when the
    GET is answered with status 404, the handler ends with the tracked
    object removed from state and with no diagnostic, whatever was
    tracked before. *)
Theorem read_404_clears_state (op : ops.t) (parses : string -> bool)
    (c : clients.Client.t) (input : ops.Model op)
    (tracked : option (ops.Model op)) (httpResp : http.Response.t) :
  ops.isRead op = true ->
  ops.answered op parses c input httpResp ->
  http.Response.StatusCode httpResp = http.StatusNotFound ->
  call (ops.handle op parses (Some c) input) (Response.mk [] tracked)
  = Finished (Response.mk [] None) [ops.request op c input].
Proof.
  intros Hread [Hparse Hdo] H404.
  destruct op as [[] | | |]; try discriminate Hread;
    unfold_handlers; rewrite Hparse; cbv beta iota;
    rewrite Hdo; cbv beta iota; rewrite H404; reflexivity.
Qed.

Lemma read_404_clears_state_witness :
  call (ops.handle (ops.ProbeRead ops.Health) anyURL
          (Some (rover (always 404 json.Empty)))
          (HealthDataSourceModel.mk types.Null))
       (Response.mk [] (Some (HealthDataSourceModel.mk (types.Known true))))
  = Finished (Response.mk [] None)
      [http.Request.mk "GET" "http://192.168.4.1:80/v1/healthz" [] json.Empty].
Proof.
  apply (read_404_clears_state (ops.ProbeRead ops.Health) anyURL
           (rover (always 404 json.Empty)) (HealthDataSourceModel.mk types.Null)
           (Some (HealthDataSourceModel.mk (types.Known true)))
           (http.Response.mk 404 json.Empty)).
  - reflexivity.
  - split; reflexivity.
  - reflexivity.
Defined.

(** ** Update *)

(** C4. [Update] hands no request to the HTTP client; it ends with the
    planned value as the tracked state and adds no diagnostic. *)
Theorem update_only_overwrites_state (r : MovementResource.t)
    (req : resource.UpdateRequest.t MovementResourceModel.t)
    (tracked : option MovementResourceModel.t) :
  call (MovementResource.Update r req) (Response.mk [] tracked)
  = Finished (Response.mk [] (Some (resource.UpdateRequest.Plan req))) [].
Proof. destruct req; reflexivity. Qed.

(** ** Statuses other than 404 *)

Lemma neq_404 (s : Z) :
  s <> http.StatusNotFound -> (s =? http.StatusNotFound) = false.
Proof. intros H. now apply Z.eqb_neq. Qed.

(** C1, as the code has it.  When the round trip of a probe or of a
    movement create, read or delete completes with a status that is
    neither 404 nor in the success range, the handler ends exactly as
    it does for a success status with the same body; it reports no
    diagnostic of kind unexpected-status; and when the body does not
    decode it reports a decode diagnostic and leaves the tracked state
    as it was. *)
Theorem other_status_handled_as_success (op : ops.t) (parses : string -> bool)
    (c : clients.Client.t) (hc' : http.Client.t) (input : ops.Model op)
    (tracked : option (ops.Model op)) (httpResp httpResp' : http.Response.t) :
  ops.answered op parses c input httpResp ->
  ops.answered op parses (withTransport c hc') input httpResp' ->
  http.Response.StatusCode httpResp <> http.StatusNotFound ->
  success (http.Response.StatusCode httpResp) = false ->
  success (http.Response.StatusCode httpResp') = true ->
  http.Response.Body httpResp = http.Response.Body httpResp' ->
  let out := call (ops.handle op parses (Some c) input) (Response.mk [] tracked) in
  out = call (ops.handle op parses (Some (withTransport c hc')) input) (Response.mk [] tracked)
  /\ ~ reports diag.unexpected_status out
  /\ (ops.decodes op (http.Response.Body httpResp) = false ->
      reports diag.decode out /\
      exists ds, out = Finished (Response.mk ds tracked) [ops.request op c input]).
Proof.
  intros [Hparse Hdo] [Hparse' Hdo'] Hne Hfail Hok Hbody out.
  assert (Hne' : http.Response.StatusCode httpResp' <> http.StatusNotFound).
  { intros E. rewrite E in Hok. discriminate Hok. }
  apply neq_404 in Hne, Hne'.
  subst out.
  destruct op as [[] | | |]; unfold_handlers;
    cbn [clients.Client.Config clients.Client.HttpClient withTransport ops.decodes] in *;
    unfold ops.createBody in *;
    try destruct (model.MovementRequest.encode _) as [v|e];
    cbv beta iota; rewrite Hparse; cbv beta iota;
    rewrite Hdo, Hdo'; cbv beta iota; rewrite Hne, Hne', <- Hbody;
    match goal with
    | |- context [json.Decode ?d ?z ?b] => destruct (json.Decode d z b) eqn:Hdec
    end;
    cbn [is_Ok];
    (split; [reflexivity|]);
    (split; [ intros (resp & sent & d & Heq & Hin & Hk); injection Heq as <- _;
              cbn in Hin; intuition (subst; discriminate) | ]).
  all: try discriminate.
  all: intros _; split; [ | eexists; reflexivity ].
  all: eexists _, _, _; split; [reflexivity|]; cbn;
    first [ now (split; [left; reflexivity | reflexivity])
          | now (split; [right; left; reflexivity | reflexivity]) ].
Qed.

Lemma other_status_handled_as_success_witness :
  let out := call (ops.handle (ops.ProbeRead ops.Health) anyURL
                     (Some (rover (always 500 htmlBody)))
                     (HealthDataSourceModel.mk types.Null))
                  (Response.mk [] None) in
  out = call (ops.handle (ops.ProbeRead ops.Health) anyURL
                (Some (withTransport (rover (always 500 htmlBody))
                                     (always 200 htmlBody)))
                (HealthDataSourceModel.mk types.Null))
             (Response.mk [] None)
  /\ ~ reports diag.unexpected_status out
  /\ (ops.decodes (ops.ProbeRead ops.Health) htmlBody = false ->
      reports diag.decode out /\
      exists ds, out = Finished (Response.mk ds None)
                         [ops.request (ops.ProbeRead ops.Health)
                            (rover (always 500 htmlBody))
                            (HealthDataSourceModel.mk types.Null)]).
Proof.
  apply (other_status_handled_as_success (ops.ProbeRead ops.Health) anyURL
           (rover (always 500 htmlBody)) (always 200 htmlBody)
           (HealthDataSourceModel.mk types.Null) None
           (http.Response.mk 500 htmlBody) (http.Response.mk 200 htmlBody)).
  - split; reflexivity.
  - split; reflexivity.
  - intros H; discriminate H.
  - reflexivity.
  - reflexivity.
  - reflexivity.
Defined.

(** C1, as stated, fails: the health probe answered with status 500 and
    the device's error envelope reports nothing at all and stores
    [healthy = false] as the probe's result. *)
Lemma health_500_is_stored_as_success :
  let out := call (ops.handle (ops.ProbeRead ops.Health) anyURL
                     (Some (rover (always 500 errorBody)))
                     (HealthDataSourceModel.mk types.Null))
                  (Response.mk [] None) in
  out = Finished
          (Response.mk [] (Some (HealthDataSourceModel.mk (types.Known false))))
          [http.Request.mk "GET" "http://192.168.4.1:80/v1/healthz" [] json.Empty]
  /\ ~ reports diag.unexpected_status out.
Proof.
  split; [reflexivity|].
  intros (resp & sent & d & Heq & Hin & _).
  injection Heq as <- _. destruct Hin.
Qed.

(** ** Delete *)

(** C5, as the code has it.  With the request built, [Delete] under the
    framework ends in one of two ways.  The tracked plan is discarded
    without a diagnostic when the device answers 404 or with any other
    status and a body that decodes as a movement status (the handler
    leaves the state to the framework in the second case).  A round
    trip that fails and a body that does not decode are reported, as a
    transport and as a decode diagnostic, and the tracked plan stays. *)
Theorem delete_discards_unless_reported (parses : string -> bool)
    (c : clients.Client.t) (tracked : MovementResourceModel.t) :
  parses (ops.url ops.MovementDelete c) = true ->
  let req := ops.request ops.MovementDelete c tracked in
  let answer := http.Client.Do (clients.Client.HttpClient c) req in
  let r := MovementResource.mk (Some c) in
  let out := host.DeleteResource parses r tracked in
  (forall httpResp,
      answer = Ok httpResp ->
      http.Response.StatusCode httpResp = http.StatusNotFound \/
      ops.decodes ops.MovementDelete (http.Response.Body httpResp) = true ->
      out = Finished (Response.mk [] None) [req])
  /\ (forall httpResp,
      answer = Ok httpResp ->
      http.Response.StatusCode httpResp <> http.StatusNotFound ->
      ops.decodes ops.MovementDelete (http.Response.Body httpResp) = true ->
      call (MovementResource.Delete parses r (resource.DeleteRequest.mk tracked))
           (Response.mk [] (Some tracked))
      = Finished (Response.mk [] (Some tracked)) [req])
  /\ (forall httpResp,
      answer = Ok httpResp ->
      http.Response.StatusCode httpResp <> http.StatusNotFound ->
      ops.decodes ops.MovementDelete (http.Response.Body httpResp) = false ->
      exists d, out = Finished (Response.mk [d] (Some tracked)) [req] /\
                diag.Diagnostic.Kind_ d = diag.decode)
  /\ (forall err,
      answer = Err err ->
      exists d, out = Finished (Response.mk [d] (Some tracked)) [req] /\
                diag.Diagnostic.Kind_ d = diag.transport).
Proof.
  intros Hparse req answer r out. subst req answer r out.
  unfold host.DeleteResource. unfold_handlers.
  cbn [ops.decodes] in *. rewrite Hparse. cbv beta iota.
  repeat split.
  - intros httpResp Hdo Hcase. rewrite Hdo. cbv beta iota.
    destruct (http.Response.StatusCode httpResp =? http.StatusNotFound) eqn:E.
    + reflexivity.
    + destruct Hcase as [H404 | Hdec].
      * rewrite H404 in E. discriminate E.
      * destruct (json.Decode _ _ _); [reflexivity | discriminate Hdec].
  - intros httpResp Hdo Hne Hdec. rewrite Hdo. cbv beta iota.
    rewrite (neq_404 _ Hne).
    destruct (json.Decode _ _ _); [reflexivity | discriminate Hdec].
  - intros httpResp Hdo Hne Hdec. rewrite Hdo. cbv beta iota.
    rewrite (neq_404 _ Hne).
    destruct (json.Decode _ _ _); [discriminate Hdec |].
    eexists. split; reflexivity.
  - intros err Hdo. rewrite Hdo. cbv beta iota.
    eexists. split; reflexivity.
Qed.

Lemma delete_discards_unless_reported_witness :
  host.DeleteResource anyURL
    (MovementResource.mk (Some (rover (always 200 (json.Doc (json.Object [("moving", json.Bool false)]))))))
    examplePlan
  = Finished (Response.mk [] None)
      [http.Request.mk "DELETE" "http://192.168.4.1:80/v1/movement" [] json.Empty].
Proof.
  pose proof (delete_discards_unless_reported anyURL
                (rover (always 200 (json.Doc (json.Object [("moving", json.Bool false)]))))
                examplePlan eq_refl) as H.
  cbv zeta in H. destruct H as [H _].
  apply (H (http.Response.mk 200 (json.Doc (json.Object [("moving", json.Bool false)])))).
  - reflexivity.
  - right. reflexivity.
Defined.

(** C5, as stated, fails: a delete answered with status 500 and the
    device's error envelope is not reported, and the tracked plan is
    discarded. *)
Lemma delete_500_discards_silently :
  host.DeleteResource anyURL (MovementResource.mk (Some (rover (always 500 errorBody))))
    examplePlan
  = Finished (Response.mk [] None)
      [http.Request.mk "DELETE" "http://192.168.4.1:80/v1/movement" [] json.Empty].
Proof. reflexivity. Qed.

(** ** Create *)

(** C6. When the POST is answered with a success status and a body that
    decodes as a movement status, [Create] ends with the planned value
    (name, persist and the steps in their order) as the tracked state,
    whatever [moving] says; it has sent the one request, and it has
    reported nothing when the plan encodes. *)
Theorem create_commits_declared_values (parses : string -> bool)
    (c : clients.Client.t) (planned : MovementResourceModel.t)
    (httpResp : http.Response.t) (readResp : model.MovementResponse.t) :
  ops.answered ops.MovementCreate parses c planned httpResp ->
  success (http.Response.StatusCode httpResp) = true ->
  json.Decode model.MovementResponse.decode model.MovementResponse.zero
    (http.Response.Body httpResp) = Ok readResp ->
  let out := call (MovementResource.Create parses (MovementResource.mk (Some c))
                     (resource.CreateRequest.mk planned))
                  (Response.mk [] None) in
  (exists ds, out = Finished (Response.mk ds (Some planned))
                      [ops.request ops.MovementCreate c planned])
  /\ (ops.createBody planned <> json.Empty ->
      out = Finished (Response.mk [] (Some planned))
              [ops.request ops.MovementCreate c planned]).
Proof.
  intros [Hparse Hdo] Hok Hdec out. subst out.
  assert (Hne : (http.Response.StatusCode httpResp =? http.StatusNotFound) = false).
  { apply neq_404. intros E. rewrite E in Hok. discriminate Hok. }
  unfold_handlers. unfold ops.createBody in *.
  destruct (model.MovementRequest.encode _) as [v|e];
    cbv beta iota; rewrite Hparse; cbv beta iota;
    rewrite Hdo; cbv beta iota; rewrite Hne, Hdec; cbv beta iota.
  - split; [eexists; reflexivity | intros _; reflexivity].
  - split; [eexists; reflexivity | intros H; now contradiction H].
Qed.

Lemma create_commits_declared_values_witness :
  call (MovementResource.Create anyURL
          (MovementResource.mk
             (Some (rover (always 201 (json.Doc (json.Object [("moving", json.Bool true)]))))))
          (resource.CreateRequest.mk examplePlan))
       (Response.mk [] None)
  = Finished (Response.mk [] (Some examplePlan))
      [ops.request ops.MovementCreate
         (rover (always 201 (json.Doc (json.Object [("moving", json.Bool true)]))))
         examplePlan].
Proof.
  pose proof (create_commits_declared_values anyURL
                (rover (always 201 (json.Doc (json.Object [("moving", json.Bool true)]))))
                examplePlan
                (http.Response.mk 201 (json.Doc (json.Object [("moving", json.Bool true)])))
                (model.MovementResponse.mk true)) as H.
  cbv zeta in H. apply H.
  - split; reflexivity.
  - reflexivity.
  - reflexivity.
  - intros E. discriminate E.
Defined.

(** ** The device probe *)

(** C9. When the device-status GET is answered with a success status
    and a body that decodes, the stored result takes name, uptime,
    identifiers and versions from the decoded response, and its
    [features] attribute is the one of the configuration the probe was
    called with: the decoded [features] are not looked at. *)
Theorem device_read_never_populates_features (parses : string -> bool)
    (c : clients.Client.t) (config : DeviceDataSourceModel.t)
    (tracked : option DeviceDataSourceModel.t)
    (httpResp : http.Response.t) (readResp : model.DeviceResponse.t) :
  ops.answered (ops.ProbeRead ops.Device) parses c config httpResp ->
  success (http.Response.StatusCode httpResp) = true ->
  json.Decode model.DeviceResponse.decode model.DeviceResponse.zero
    (http.Response.Body httpResp) = Ok readResp ->
  call (DeviceDataSource.Read parses (DeviceDataSource.mk (Some c))
          (datasource.ReadRequest.mk config))
       (Response.mk [] tracked)
  = Finished
      (Response.mk []
         (Some (DeviceDataSourceModel.mk
                  (types.Known (model.DeviceResponse.Name readResp))
                  (types.Known (model.DeviceResponse.Uptime readResp))
                  (expandDeviceResponseIdentifiersModel (model.DeviceResponse.Identifiers readResp))
                  (expandDeviceResponseVersionsModel (model.DeviceResponse.Versions readResp))
                  (DeviceDataSourceModel.Features config))))
      [ops.request (ops.ProbeRead ops.Device) c config].
Proof.
  intros [Hparse Hdo] Hok Hdec.
  assert (Hne : (http.Response.StatusCode httpResp =? http.StatusNotFound) = false).
  { apply neq_404. intros E. rewrite E in Hok. discriminate Hok. }
  unfold_handlers. rewrite Hparse. cbv beta iota.
  rewrite Hdo. cbv beta iota. rewrite Hne, Hdec. reflexivity.
Qed.

Lemma device_read_never_populates_features_witness :
  call (DeviceDataSource.Read anyURL (DeviceDataSource.mk (Some (rover (always 200 statusBody))))
          (datasource.ReadRequest.mk noDevice))
       (Response.mk [] None)
  = Finished
      (Response.mk []
         (Some (DeviceDataSourceModel.mk
                  (types.Known "pathfinder")
                  (types.Known (finite64_of_Z 12))
                  (Some (DeviceResponseIdentifiersModel.mk
                           (types.Known "wave-rover-0001") (types.Known "0001")))
                  (Some (DeviceResponseVersionsModel.mk
                           (types.Known "v1") (types.Known "0.1.0")))
                  types.Null)))
      [http.Request.mk "GET" "http://192.168.4.1:80/v1/device/status" [] json.Empty].
Proof.
  apply (device_read_never_populates_features anyURL (rover (always 200 statusBody))
           noDevice None (http.Response.mk 200 statusBody) statusDecoded).
  - split; reflexivity.
  - reflexivity.
  - vm_compute. reflexivity.
Defined.

(** ** The API key *)

(** Case analysis on every test a handler makes on its environment. *)
Ltac split_handler :=
  repeat (cbv beta iota;
          match goal with
          | |- context [if ?p ?u then _ else _] => destruct (p u)
          | |- context [http.Client.Do ?c ?r] => destruct (http.Client.Do c r)
          | |- context [?s =? http.StatusNotFound] => destruct (s =? http.StatusNotFound)
          | |- context [json.Decode ?d ?z ?b] => destruct (json.Decode d z b)
          end);
  cbv beta iota.

(** C10. Whatever [api_key] is configured, [Configure] hands the data
    sources and the resource a client whose configuration holds the
    address and an empty [ApiKey], and that is the client a configured
    component keeps.  A handler run with client configurations that
    differ in [ApiKey] alone ends the same way; the only request it
    passes to the HTTP client is made of the method, the address with
    the path, no header, and the encoded plan or an empty body; and
    [Update] does not use the client at all. *)
Theorem requests_independent_of_api_key (op : ops.t) (parses : string -> bool)
    (DefaultClient hc : http.Client.t) (address api_key : types.String)
    (addr key1 key2 : string)
    (input : ops.Model op) (tracked : option (ops.Model op))
    (req : resource.UpdateRequest.t MovementResourceModel.t)
    (state : option MovementResourceModel.t) :
  let configured :=
    PathfinderProvider.Configure DefaultClient
      (PathfinderProviderModel.mk address api_key) (ConfigureResponse.mk [] None None) in
  let client :=
    clients.Client.mk (clients.ClientConfig.mk (types.ValueString address) "")
      DefaultClient in
  let c1 := clients.Client.mk (clients.ClientConfig.mk addr key1) hc in
  let c2 := clients.Client.mk (clients.ClientConfig.mk addr key2) hc in
  configured = ConfigureResponse.mk [] (Some client) (Some client)
  /\ MovementResource.Configure (ConfigureResponse.ResourceData configured)
       (MovementResource.mk None)
     = MovementResource.mk (Some client)
  /\ MovementLockDataSource.Configure (ConfigureResponse.DataSourceData configured)
       (MovementLockDataSource.mk None)
     = MovementLockDataSource.mk (Some client)
  /\ call (ops.handle op parses (Some c1) input) (Response.mk [] tracked)
     = call (ops.handle op parses (Some c2) input) (Response.mk [] tracked)
  /\ ops.request op c1 input = http.Request.mk (ops.method op) (addr +:+ ops.path op) []
                                 (ops.body op input)
  /\ match call (ops.handle op parses (Some c1) input) (Response.mk [] tracked) with
     | Finished _ sent | Panicked sent => sent = [] \/ sent = [ops.request op c1 input]
     end
  /\ call (MovementResource.Update (MovementResource.mk (Some c1)) req) (Response.mk [] state)
     = call (MovementResource.Update (MovementResource.mk None) req) (Response.mk [] state).
Proof.
  intros configured client c1 c2. subst configured client c1 c2.
  split; [reflexivity|].
  split; [reflexivity|].
  split; [reflexivity|].
  split; [destruct op as [[] | | |]; reflexivity|].
  split; [reflexivity|].
  split; [|destruct req; reflexivity].
  destruct op as [[] | | |]; unfold_handlers;
    cbn [clients.Client.Config clients.Client.HttpClient clients.ClientConfig.Address];
    unfold ops.createBody;
    try destruct (model.MovementRequest.encode _);
    cbv beta iota; split_handler; auto.
Qed.

(** ** Validation *)

Lemma HasError_app (a b : diag.Diagnostics) :
  diag.HasError (a ++ b)%list = diag.HasError a || diag.HasError b.
Proof. apply existsb_app. Qed.

Lemma HasError_concat_map {A} (f : A -> diag.Diagnostics) (l : list A) (x : A) :
  In x l -> diag.HasError (f x) = true ->
  diag.HasError (List.concat (List.map f l)) = true.
Proof.
  intros Hin Hx. induction l as [|y l IH]; [destruct Hin|].
  cbn [List.map List.concat]. rewrite HasError_app.
  destruct Hin as [-> | Hin].
  - now rewrite Hx.
  - rewrite (IH Hin). apply orb_true_r.
Qed.

Lemma validateStep_distance (step : MovementStepsModel.t) (d : finite64) :
  MovementStepsModel.Distance step = types.Known d ->
  float64_lt (float64_of_finite d) float64_1 = true \/
  float64_gt (float64_of_finite d) float64_100 = true ->
  diag.HasError (host.validateStep step) = true.
Proof.
  intros Hd Hout. unfold host.validateStep. rewrite HasError_app.
  apply orb_true_iff. right.
  cbn [MovementResource.Schema.distance List.map List.concat].
  rewrite Hd. cbn [float64validator.Validate].
  destruct Hout as [-> | ->]; [reflexivity | now rewrite orb_true_r].
Qed.

Lemma validateStep_direction (step : MovementStepsModel.t) (s : string) :
  MovementStepsModel.Direction step = types.Known s ->
  s <> "forward" -> s <> "backward" ->
  diag.HasError (host.validateStep step) = true.
Proof.
  intros Hs Hf Hb. unfold host.validateStep. rewrite HasError_app.
  apply orb_true_iff. left.
  cbn [MovementResource.Schema.direction List.map List.concat].
  rewrite Hs.
  cbn [stringvalidator.Validate stringvalidator.ValidateString List.map existsb].
  apply String.eqb_neq in Hf, Hb. rewrite Hf, Hb. reflexivity.
Qed.

Lemma validation_diagnostics_only (config : MovementResourceModel.t) :
  Forall (fun d => diag.Diagnostic.Kind_ d = diag.validation /\ diag.isError d = true)
         (host.ValidateResourceConfig config).
Proof.
  unfold host.ValidateResourceConfig.
  apply Forall_app. split.
  - cbn [MovementResource.Schema.steps List.map List.concat listvalidator.Validate].
    destruct (MovementResourceModel.Steps config) as [|x l]; cbn [app].
    + repeat constructor.
    + destruct (50 <? _); repeat constructor.
  - induction (MovementResourceModel.Steps config) as [|x l IH]; [constructor|].
    cbn [List.map List.concat]. apply Forall_app. split; [|exact IH].
    unfold host.validateStep. apply Forall_app. split.
    + cbn [MovementResource.Schema.direction List.map List.concat].
      destruct (MovementStepsModel.Direction x) as [| |s];
        cbn [stringvalidator.Validate stringvalidator.ValidateString List.map existsb app];
        try constructor.
      destruct (String.eqb s "forward" || (String.eqb s "backward" || false));
        cbn; repeat constructor.
    + cbn [MovementResource.Schema.distance List.map List.concat].
      destruct (MovementStepsModel.Distance x) as [| |f];
        cbn [float64validator.Validate app]; try constructor.
      destruct (float64_lt (float64_of_finite f) float64_1
                || float64_gt (float64_of_finite f) float64_100); repeat constructor.
Qed.

(** C2. A configuration with a distance under 1.0 or over 100.0, with a
    direction other than forward and backward, or with more than 50
    steps is rejected by the validators of the schema: creating it ends
    with error diagnostics, all of kind validation, with no tracked
    state, and without a request to the device. *)
Theorem create_rejects_invalid_plan (parses : string -> bool)
    (r : MovementResource.t) (config : MovementResourceModel.t) :
  violates config ->
  exists d ds,
    host.CreateResource parses r config = Finished (Response.mk (d :: ds) None) [] /\
    Forall (fun d => diag.Diagnostic.Kind_ d = diag.validation /\ diag.isError d = true)
           (d :: ds).
Proof.
  intros Hbad.
  assert (Herr : diag.HasError (host.ValidateResourceConfig config) = true).
  { unfold host.ValidateResourceConfig. rewrite HasError_app. apply orb_true_iff.
    destruct Hbad as [(step & d & Hin & Hd & Hout) | [(step & s & Hin & Hs & Hf & Hb) | Hlen]].
    - right. apply (HasError_concat_map _ _ step Hin).
      exact (validateStep_distance step d Hd Hout).
    - right. apply (HasError_concat_map _ _ step Hin).
      exact (validateStep_direction step s Hs Hf Hb).
    - left.
      cbn [MovementResource.Schema.steps List.map List.concat listvalidator.Validate].
      destruct (MovementResourceModel.Steps config) as [|x l]; [cbn in Hlen; lia|].
      assert (E : (50 <? Z.of_nat (length (x :: l))) = true) by (apply Z.ltb_lt; lia).
      rewrite E. reflexivity. }
  pose proof (validation_diagnostics_only config) as Hall.
  unfold host.CreateResource. rewrite Herr.
  destruct (host.ValidateResourceConfig config) as [|d ds]; [discriminate Herr|].
  exists d, ds. split; [reflexivity | exact Hall].
Qed.

Lemma create_rejects_invalid_plan_witness :
  exists d ds,
    host.CreateResource anyURL (MovementResource.mk (Some (rover (always 201 movingBody))))
      readmePlan
    = Finished (Response.mk (d :: ds) None) [] /\
    Forall (fun d => diag.Diagnostic.Kind_ d = diag.validation /\ diag.isError d = true)
           (d :: ds).
Proof.
  apply (create_rejects_invalid_plan anyURL
           (MovementResource.mk (Some (rover (always 201 movingBody)))) readmePlan).
  right. left. exists right1, "right".
  split; [right; left; reflexivity|].
  split; [reflexivity|].
  split; intros H; discriminate H.
Defined.

(** ** The create request on the wire *)

Lemma float64_eqb_eq x y : float64_eqb x y = true -> x = y.
Proof.
  destruct x, y; cbn; try discriminate; try reflexivity.
  - intros H. apply Bool.eqb_prop in H. now subst.
  - intros H. apply Bool.eqb_prop in H. now subst.
  - intros H. apply andb_true_iff in H as [H He]. apply andb_true_iff in H as [Hs Hm].
    apply Bool.eqb_prop in Hs. apply Pos.eqb_eq in Hm. apply Z.eqb_eq in He. now subst.
Qed.

Lemma digits2_pos_size p : digits2_pos p = Pos.size p.
Proof. induction p; cbn; congruence. Qed.

Lemma digits2_bounds p n : Z.pos (digits2_pos p) = n -> 2 ^ (n - 1) <= Z.pos p < 2 ^ n.
Proof.
  intros <-. rewrite digits2_pos_size.
  pose proof (Pos.size_gt p) as Hgt. pose proof (Pos.size_le p) as Hle.
  split.
  - apply Pos2Z.pos_le_pos in Hle. rewrite Pos2Z.inj_pow in Hle.
    change (Z.pos p~0) with (2 * Z.pos p) in Hle.
    assert (E : 2 ^ Z.pos (Pos.size p) = 2 * 2 ^ (Z.pos (Pos.size p) - 1)).
    { rewrite <- Z.pow_succ_r by lia. f_equal. lia. }
    rewrite E in Hle. lia.
  - apply Pos2Z.pos_lt_pos in Hgt. now rewrite Pos2Z.inj_pow in Hgt.
Qed.

Lemma range_forallb (P : Z -> bool) (lo hi : Z) :
  0 <= lo ->
  forallb P (List.map Z.of_nat (seq (Z.to_nat lo) (Z.to_nat (hi - lo + 1)))) = true ->
  forall k, lo <= k <= hi -> P k = true.
Proof.
  intros Hlo Hall k Hk. rewrite forallb_forall in Hall. apply Hall.
  apply in_map_iff. exists (Z.to_nat k). split; [lia|].
  apply in_seq. lia.
Qed.

Lemma digits53 (m : positive) :
  Z.pos (digits2_pos m) = 53 -> 4503599627370496 <= Z.pos m < 9007199254740992.
Proof. intros H. apply digits2_bounds in H. exact H. Qed.


Lemma finite_range (m : positive) (e : Z) :
  float64_valid (S754_finite false m e) = true ->
  SFleb float64_1 (S754_finite false m e) = true ->
  SFleb (S754_finite false m e) float64_100 = true ->
  -52 <= e <= -46 /\ 4503599627370496 <= Z.pos m < 9007199254740992
  /\ (e = -46 -> Z.pos m <= 7036874417766400).
Proof.
  unfold float64_valid, valid_binary, bounded, canonical_mantissa, fexp, emin.
  unfold SFleb, SFcompare, float64_1, float64_100.
  intros Hv H1 H100.
  apply andb_true_iff in Hv as [Hc _]. apply Z.eqb_eq in Hc.
  assert (He1 : -52 <= e).
  { destruct (Z.compare_spec (-52) e); first [discriminate H1 | clear H1 H100 Hc; lia]. }
  
  assert (He2 : e <= -46).
  { destruct (Z.compare_spec e (-46)); first [discriminate H100 | clear H1 H100 Hc; lia]. }
  
  assert (Hd : Z.pos (digits2_pos m) = 53) by (clear H1 H100; lia).
  
  apply digits53 in Hd. 
  
  split; [clear H1 H100; lia|]. split; [exact Hd|].
  
  intros ->.  rewrite Z.compare_refl in H100. 
  destruct (PosDef.Pos.compare_cont Eq m 7036874417766400) eqn:E; [ | | discriminate H100].
  
  - apply Pos.compare_eq in E.  subst m.  clear.  
    apply Pos2Z.pos_le_pos. apply Pos.le_refl.
  - apply (proj1 (Pos.compare_lt_iff _ _)) in E.  
    apply Pos2Z.pos_le_pos. apply Pos.lt_le_incl. exact E.
Qed.


Lemma whole_exact_all :
  forallb (fun e =>
             forallb (whole_exact e)
               (List.map Z.of_nat (seq (Z.to_nat (2 ^ (52 + e)))
                                       (Z.to_nat (Z.min 100 (2 ^ (53 + e) - 1) - 2 ^ (52 + e) + 1)))))
          [-52; -51; -50; -49; -48; -47; -46] = true.
Proof. vm_compute. reflexivity. Qed.

Lemma whole_roundtrip (m : positive) (e : Z) (n : N) :
  float64_valid (S754_finite false m e) = true ->
  SFleb float64_1 (S754_finite false m e) = true ->
  SFleb (S754_finite false m e) float64_100 = true ->
  json.whole m e = Some n ->
  float64_of_Z (Z.of_N n) = S754_finite false m e.
Proof.
  intros Hv H1 H100 Hw.
  destruct (finite_range m e Hv H1 H100) as (He & Hm & Hm46).
  unfold json.whole in Hw.
  destruct (0 <=? e) eqn:E0; [apply Z.leb_le in E0; lia|].
  destruct (Z.pos m mod 2 ^ (- e) =? 0) eqn:Emod; [|discriminate Hw].
  apply Z.eqb_eq in Emod. injection Hw as <-.
  pose proof whole_exact_all as Hall.
  rewrite forallb_forall in Hall.
  assert (Hin : In e [-52; -51; -50; -49; -48; -47; -46]).
  { cbn. lia. }
  specialize (Hall e Hin).
  assert (Hpow : 0 < 2 ^ (- e)) by (apply Z.pow_pos_nonneg; lia).
  set (k := Z.pos m / 2 ^ (- e)).
  assert (Hk : Z.pos m = k * 2 ^ (- e)).
  { unfold k. rewrite Z.mul_comm. apply Z.div_exact; lia. }
  assert (Hrange : 2 ^ (52 + e) <= k <= Z.min 100 (2 ^ (53 + e) - 1)).
  { clearbody k. clear Hall Hv H1 H100 Emod E0 Hpow.
    destruct Hin as [<-|[<-|[<-|[<-|[<-|[<-|[<-|[]]]]]]]];
      cbn in Hk |- *; lia. }
  assert (Hlo : 0 <= 2 ^ (52 + e)) by (apply Z.pow_nonneg; lia).
  pose proof (range_forallb (whole_exact e) _ _ Hlo Hall k Hrange) as Hex.
  unfold whole_exact in Hex. apply float64_eqb_eq in Hex.
  rewrite Z2N.id by (apply Z.div_pos; lia).
  fold k. rewrite Hex, <- Hk. reflexivity.
Qed.

Lemma float64_roundtrip (d : finite64) :
  in_range (float64_of_finite d) ->
  exists v, json.encodeFloat64 (float64_of_finite d) = Ok v /\
            forall ctx old, json.decodeFloat64 ctx v old = Ok d.
Proof.
  intros (Hv & H1 & H100).
  destruct d as [s | s m e]; cbn [float64_of_finite] in *;
    [destruct s; discriminate H1|].
  destruct s; [discriminate H1|].
  unfold json.encodeFloat64.
  destruct (json.whole m e) as [n|] eqn:Hw.
  - pose proof (whole_roundtrip m e n Hv H1 H100 Hw) as Hn.
    destruct (Z.of_N n <? 10 ^ 21).
    + eexists. split; [reflexivity|]. intros ctx old.
      unfold json.decodeFloat64, json.Z_of_literal.
      change (binary_normalize 53 1024 (Z.of_N n) 0 false) with (float64_of_Z (Z.of_N n)).
      rewrite Hn. reflexivity.
    + eexists. split; [reflexivity|]. intros ctx old. reflexivity.
  - eexists. split; [reflexivity|]. intros ctx old. reflexivity.
Qed.

Lemma int64_roundtrip (ctx : json.Context) (a old : int64) :
  in_int64 a = true -> json.decodeInt64 ctx (json.encodeInt64 a) old = Ok a.
Proof.
  intros Ha. unfold json.encodeInt64, json.decodeInt64.
  assert (E : json.Z_of_literal (a <? 0) (Z.abs_N a) = a).
  { unfold json.Z_of_literal. rewrite N2Z.inj_abs_N.
    destruct (a <? 0) eqn:E; [apply Z.ltb_lt in E | apply Z.ltb_ge in E]; lia. }
  rewrite E, Ha. reflexivity.
Qed.

Lemma item_roundtrip (x : model.MovementStepItem.t) :
  in_int64 (model.MovementStepItem.Angle x) = true ->
  in_range (float64_of_finite (model.MovementStepItem.Distance x)) ->
  exists v, model.MovementStepItem.encode x = Ok v /\
            forall ctx, model.MovementStepItem.decode ctx v model.MovementStepItem.zero = Ok x.
Proof.
  intros Ha Hd. destruct x as [a s d]. cbn [model.MovementStepItem.Angle model.MovementStepItem.Distance] in *.
  destruct (float64_roundtrip d Hd) as (vd & Henc & Hdec).
  unfold model.MovementStepItem.encode. cbn [model.MovementStepItem.Distance result_bind].
  rewrite Henc. cbn [result_bind]. eexists. split; [reflexivity|]. intros ctx.
  unfold model.MovementStepItem.decode, json.decodeStruct.
  cbn [foldM_result fst snd json.lookupField model.MovementStepItem.fields
       List.find String.eqb Ascii.eqb Bool.eqb
       model.MovementStepItem.Angle model.MovementStepItem.Direction
       model.MovementStepItem.Distance].
  rewrite (int64_roundtrip _ _ _ Ha). cbn [result_bind json.decodeString
       model.MovementStepItem.Angle model.MovementStepItem.Direction
       model.MovementStepItem.Distance].
  rewrite Hdec. reflexivity.
Qed.

Lemma decodeElems_fresh {T} (elem : json.Value -> T -> result T) (zero : T)
    (l : list json.Value) :
  json.decodeElems elem zero l [] = mapM_result (fun x => elem x zero) l.
Proof.
  induction l as [|x l IH]; [reflexivity|].
  cbn [json.decodeElems mapM_result hd tl]. now rewrite IH.
Qed.

Lemma items_roundtrip (l : list model.MovementStepItem.t) :
  Forall wire_ok l ->
  exists vs, mapM_result model.MovementStepItem.encode l = Ok vs /\
             forall ctx,
               mapM_result
                 (fun v => model.MovementStepItem.decode ctx v model.MovementStepItem.zero) vs
               = Ok l.
Proof.
  induction 1 as [|x l [Ha Hd] _ (vs & Henc & Hdec)].
  - exists []. split; reflexivity.
  - destruct (item_roundtrip x Ha Hd) as (v & Hx & Hv).
    exists (v :: vs). cbn [mapM_result]. rewrite Hx, Henc. split; [reflexivity|].
    intros ctx. rewrite Hv, Hdec. reflexivity.
Qed.

Lemma request_roundtrip (x : model.MovementRequest.t) :
  Forall wire_ok (model.MovementRequest.Steps x) ->
  exists v, model.MovementRequest.encode x = Ok v /\
            json.Decode model.MovementRequest.decode model.MovementRequest.zero (json.Doc v)
            = Ok x.
Proof.
  intros Hl. destruct x as [name persist steps]. cbn [model.MovementRequest.Steps] in Hl.
  destruct (items_roundtrip steps Hl) as (vs & Henc & Hdec).
  unfold model.MovementRequest.encode. cbn [model.MovementRequest.Steps result_bind].
  rewrite Henc. cbn [result_bind]. eexists. split; [reflexivity|].
  unfold json.Decode, model.MovementRequest.decode, json.decodeStruct.
  cbn [foldM_result fst snd json.lookupField model.MovementRequest.fields
       List.find String.eqb Ascii.eqb Bool.eqb result_bind
       json.decodeString json.decodeBool json.decodeSlice
       model.MovementRequest.Name model.MovementRequest.Persist
       model.MovementRequest.Steps model.MovementRequest.zero].
  rewrite decodeElems_fresh, Hdec. reflexivity.
Qed.

(** The indexed loop of [Create] and of the Wi-Fi probe is a map. *)
Lemma loop_from {A B} (f : A -> B) (l : list A) :
  forall (k : nat) (acc : list B),
    length acc = (k + length l)%nat ->
    foldl (fun acc '(i, x) => <[ i := f x ]> acc) acc (zip (seq k (length l)) l)
    = (take k acc ++ (f <$> l))%list.
Proof.
  induction l as [|x l IH]; intros k acc Hlen.
  - cbn. rewrite take_ge by (cbn in Hlen; lia). now rewrite app_nil_r.
  - cbn [length seq zip zip_with foldl].
    rewrite IH by (rewrite length_insert; cbn in Hlen; lia).
    rewrite (take_S_r _ _ (f x)).
    + rewrite take_insert_ge by lia. rewrite <- app_assoc. reflexivity.
    + apply list_lookup_insert_eq. cbn in Hlen. lia.
Qed.

Lemma convertSteps_map (steps : list MovementStepsModel.t) :
  MovementResource.convertSteps steps = MovementResource.toItem <$> steps.
Proof.
  unfold MovementResource.convertSteps.
  rewrite (loop_from MovementResource.toItem steps 0) by (rewrite length_replicate; lia).
  reflexivity.
Qed.

Lemma convertNetworks_map (readResp : list model.WifiNetworkItem.t) :
  WifiNetworksDataSource.convertNetworks readResp
  = WifiNetworksDataSource.toModel <$> readResp.
Proof.
  unfold WifiNetworksDataSource.convertNetworks.
  rewrite (loop_from WifiNetworksDataSource.toModel readResp 0)
    by (rewrite length_replicate; lia).
  reflexivity.
Qed.

Lemma fromItem_toItem (step : MovementStepsModel.t) :
  valid_step step -> fromItem (MovementResource.toItem step) = step.
Proof. intros (a & s & d & -> & _). reflexivity. Qed.

Lemma toItem_wire_ok (step : MovementStepsModel.t) :
  valid_step step -> wire_ok (MovementResource.toItem step).
Proof. intros (a & s & d & -> & Ha & _ & Hd). split; assumption. Qed.

(** C8. For up to 50 steps, each with a direction among forward and
    backward and a distance from 1.0 to 100.0: the request that
    [Create] builds encodes, and decoding the encoding gives the same
    request back; the wire item at every index is the translation of
    the declared step at that index, with its angle, direction and
    distance; and reading the items back yields the declared sequence,
    so nothing is dropped, duplicated or reordered. *)
Theorem steps_survive_the_wire (name : types.String) (persist : types.Bool)
    (steps : list MovementStepsModel.t) :
  (length steps <= 50)%nat ->
  Forall valid_step steps ->
  let createReq :=
    model.MovementRequest.mk (types.ValueString name) (types.ValueBool persist)
      (MovementResource.convertSteps steps) in
  (exists v, model.MovementRequest.encode createReq = Ok v /\
             json.Decode model.MovementRequest.decode model.MovementRequest.zero (json.Doc v)
             = Ok createReq)
  /\ (forall i : nat,
        model.MovementRequest.Steps createReq !! i = MovementResource.toItem <$> steps !! i)
  /\ (forall (i : nat) step item,
        steps !! i = Some step ->
        model.MovementRequest.Steps createReq !! i = Some item ->
        types.Known (model.MovementStepItem.Angle item) = MovementStepsModel.Angle step /\
        types.Known (model.MovementStepItem.Direction item) = MovementStepsModel.Direction step /\
        types.Known (model.MovementStepItem.Distance item) = MovementStepsModel.Distance step)
  /\ fromItem <$> model.MovementRequest.Steps createReq = steps.
Proof.
  intros _ Hvalid createReq. subst createReq.
  cbn [model.MovementRequest.Steps]. rewrite convertSteps_map.
  split; [|split; [|split]].
  - apply request_roundtrip. cbn [model.MovementRequest.Steps].
    induction Hvalid as [|step l Hstep _ IH]; [constructor|].
    constructor; [exact (toItem_wire_ok step Hstep) | exact IH].
  - intros i. apply list_lookup_fmap.
  - intros i step item Hi Hitem.
    rewrite list_lookup_fmap, Hi in Hitem. injection Hitem as <-.
    rewrite Forall_forall in Hvalid.
    destruct (Hvalid step) as (a & s & d & -> & _).
    { exact (list_elem_of_lookup_2 _ _ _ Hi). }
    repeat split.
  - induction Hvalid as [|step l Hstep _ IH]; [reflexivity|].
    cbn [fmap list_fmap]. rewrite (fromItem_toItem step Hstep). f_equal. exact IH.
Qed.

Lemma steps_survive_the_wire_witness :
  let createReq :=
    model.MovementRequest.mk "example" true
      (MovementResource.convertSteps [forward1; backward100]) in
  (exists v, model.MovementRequest.encode createReq = Ok v /\
             json.Decode model.MovementRequest.decode model.MovementRequest.zero (json.Doc v)
             = Ok createReq)
  /\ (forall i : nat,
        model.MovementRequest.Steps createReq !! i
        = MovementResource.toItem <$> [forward1; backward100] !! i)
  /\ (forall (i : nat) step item,
        [forward1; backward100] !! i = Some step ->
        model.MovementRequest.Steps createReq !! i = Some item ->
        types.Known (model.MovementStepItem.Angle item) = MovementStepsModel.Angle step /\
        types.Known (model.MovementStepItem.Direction item) = MovementStepsModel.Direction step /\
        types.Known (model.MovementStepItem.Distance item) = MovementStepsModel.Distance step)
  /\ fromItem <$> model.MovementRequest.Steps createReq = [forward1; backward100].
Proof.
  apply (steps_survive_the_wire (types.Known "example") (types.Known true)
           [forward1; backward100]).
  - cbn. lia.
  - repeat constructor.
    + exists 0, "forward", (finite64_of_Z 1).
      split; [reflexivity|]. split; [reflexivity|]. split; [left; reflexivity|].
      repeat split; vm_compute; reflexivity.
    + exists 90, "backward", (finite64_of_Z 100).
      split; [reflexivity|]. split; [reflexivity|]. split; [right; reflexivity|].
      repeat split; vm_compute; reflexivity.
Defined.

(** * Further properties of the handlers *)

(** ** Failures and their reports *)

(** X1. A round trip that fails is reported once, as an error whose
    detail ends with the text of the HTTP error; the tracked state is
    left as it was and the one request has been sent. *)
Theorem transport_failure_is_reported (op : ops.t) (parses : string -> bool)
    (c : clients.Client.t) (input : ops.Model op)
    (tracked : option (ops.Model op)) (err : error) :
  parses (ops.url op c) = true ->
  http.Client.Do (clients.Client.HttpClient c) (ops.request op c input) = Err err ->
  call (ops.handle op parses (Some c) input) (Response.mk [] tracked)
  = Finished
      (Response.mk
         (reportedBefore op input ++
          [diag.NewErrorDiagnostic diag.transport (failureSummary op) (transportDetail err)])%list
         tracked)
      [ops.request op c input].
Proof.
  intros Hparse Hdo.
  destruct op as [[] | | |]; unfold_handlers;
    cbn [clients.Client.Config clients.Client.HttpClient reportedBefore failureSummary] in *;
    unfold ops.createBody in *;
    try destruct (model.MovementRequest.encode _) as [v|e];
    cbv beta iota; rewrite Hparse; cbv beta iota; rewrite Hdo; reflexivity.
Qed.

Lemma transport_failure_is_reported_witness :
  call (ops.handle ops.MovementDelete anyURL
          (Some (rover (http.Client.mk (fun _ => Err "dial tcp: i/o timeout"))))
          examplePlan)
       (Response.mk [] (Some examplePlan))
  = Finished
      (Response.mk
         [diag.NewErrorDiagnostic diag.transport "Unable to Delete Resource"
            (transportDetail "dial tcp: i/o timeout")]
         (Some examplePlan))
      [http.Request.mk "DELETE" "http://192.168.4.1:80/v1/movement" [] json.Empty].
Proof.
  apply (transport_failure_is_reported ops.MovementDelete anyURL
           (rover (http.Client.mk (fun _ => Err "dial tcp: i/o timeout")))
           examplePlan (Some examplePlan) "dial tcp: i/o timeout").
  - reflexivity.
  - reflexivity.
Defined.

(** X2. A response with a status other than 404 whose body does not
    decode is reported once, as an error whose detail ends with the
    text of the JSON error; the tracked state is left as it was. *)
Theorem decode_failure_is_reported (op : ops.t) (parses : string -> bool)
    (c : clients.Client.t) (input : ops.Model op)
    (tracked : option (ops.Model op)) (httpResp : http.Response.t) (err : error) :
  ops.answered op parses c input httpResp ->
  http.Response.StatusCode httpResp <> http.StatusNotFound ->
  decodeError op (http.Response.Body httpResp) = Some err ->
  call (ops.handle op parses (Some c) input) (Response.mk [] tracked)
  = Finished
      (Response.mk
         (reportedBefore op input ++
          [diag.NewErrorDiagnostic diag.decode (failureSummary op) (decodeDetail err)])%list
         tracked)
      [ops.request op c input].
Proof.
  intros [Hparse Hdo] Hne Herr. apply neq_404 in Hne.
  destruct op as [[] | | |]; unfold_handlers;
    cbn [clients.Client.Config clients.Client.HttpClient reportedBefore failureSummary
         decodeError] in *;
    unfold ops.createBody in *;
    try destruct (model.MovementRequest.encode _) as [v|e];
    cbv beta iota; rewrite Hparse; cbv beta iota; rewrite Hdo; cbv beta iota; rewrite Hne;
    match goal with
    | |- context [json.Decode ?d ?z ?b] => destruct (json.Decode d z b)
    end;
    first [discriminate Herr | injection Herr as ->; reflexivity].
Qed.

Lemma decode_failure_is_reported_witness :
  call (ops.handle (ops.ProbeRead ops.Battery) anyURL
          (Some (rover (always 200 htmlBody)))
          (BatteryDataSourceModel.mk types.Null types.Null))
       (Response.mk [] None)
  = Finished
      (Response.mk
         [diag.NewErrorDiagnostic diag.decode "Unable to Refresh Resource"
            (decodeDetail "invalid character '<' looking for beginning of value")]
         None)
      [http.Request.mk "GET" "http://192.168.4.1:80/v1/device/battery" [] json.Empty].
Proof.
  apply (decode_failure_is_reported (ops.ProbeRead ops.Battery) anyURL
           (rover (always 200 htmlBody))
           (BatteryDataSourceModel.mk types.Null types.Null) None
           (http.Response.mk 200 htmlBody)
           "invalid character '<' looking for beginning of value").
  - split; reflexivity.
  - intros H; discriminate H.
  - reflexivity.
Defined.

(** X3. No operation accepts an empty body: whatever the status other
    than 404 (a 204 to a delete, say), a response without content is
    reported as the decode failure [EOF] and the tracked state stays. *)
Theorem empty_body_is_a_decode_failure (op : ops.t) (parses : string -> bool)
    (c : clients.Client.t) (input : ops.Model op)
    (tracked : option (ops.Model op)) (status : Z) :
  ops.answered op parses c input (http.Response.mk status json.Empty) ->
  status <> http.StatusNotFound ->
  call (ops.handle op parses (Some c) input) (Response.mk [] tracked)
  = Finished
      (Response.mk
         (reportedBefore op input ++
          [diag.NewErrorDiagnostic diag.decode (failureSummary op) (decodeDetail "EOF")])%list
         tracked)
      [ops.request op c input].
Proof.
  intros [Hparse Hdo] Hne. apply neq_404 in Hne.
  destruct op as [[] | | |]; unfold_handlers;
    cbn [clients.Client.Config clients.Client.HttpClient reportedBefore failureSummary] in *;
    unfold ops.createBody in *;
    try destruct (model.MovementRequest.encode _) as [v|e];
    cbv beta iota; rewrite Hparse; cbv beta iota; rewrite Hdo; cbv beta iota;
    cbn [http.Response.StatusCode http.Response.Body]; rewrite Hne; reflexivity.
Qed.

Lemma empty_body_is_a_decode_failure_witness :
  call (ops.handle ops.MovementDelete anyURL (Some (rover (always 204 json.Empty)))
          examplePlan)
       (Response.mk [] (Some examplePlan))
  = Finished
      (Response.mk
         [diag.NewErrorDiagnostic diag.decode "Unable to Delete Resource" (decodeDetail "EOF")]
         (Some examplePlan))
      [http.Request.mk "DELETE" "http://192.168.4.1:80/v1/movement" [] json.Empty].
Proof.
  apply (empty_body_is_a_decode_failure ops.MovementDelete anyURL
           (rover (always 204 json.Empty)) examplePlan (Some examplePlan) 204).
  - split; reflexivity.
  - intros H; discriminate H.
Defined.

(** ** What a call sends, and when it panics *)

(** X4. A call on a configured component ends in one of two ways: it
    finishes having passed exactly one request to the HTTP client, when
    the address with the path parses as a URL; or it panics having sent
    nothing, when it does not.  Nothing is retried. *)
Theorem one_request_or_panic (op : ops.t) (parses : string -> bool)
    (c : clients.Client.t) (input : ops.Model op) (tracked : option (ops.Model op)) :
  match call (ops.handle op parses (Some c) input) (Response.mk [] tracked) with
  | Finished _ sent => parses (ops.url op c) = true /\ sent = [ops.request op c input]
  | Panicked sent => parses (ops.url op c) = false /\ sent = []
  end.
Proof.
  destruct op as [[] | | |]; unfold_handlers;
    cbn [clients.Client.Config clients.Client.HttpClient];
    unfold ops.createBody;
    try destruct (model.MovementRequest.encode _) as [v|e];
    cbv beta iota;
    match goal with |- context [parses ?u] => destruct (parses u) end;
    split_handler; split; reflexivity.
Qed.

(** X5. A component as its constructor returns it has no client, and
    [Configure] without provider data leaves it so; every handler that
    talks to the device then panics on the nil client before any
    request is built. *)
Theorem unconfigured_component_panics (op : ops.t) (parses : string -> bool)
    (input : ops.Model op) (tracked : option (ops.Model op)) :
  call (ops.handle op parses None input) (Response.mk [] tracked) = Panicked []
  /\ MovementResource.Configure None NewMovementResource = MovementResource.mk None
  /\ DeviceDataSource.Configure None NewDeviceDataSource = DeviceDataSource.mk None
  /\ BatteryDataSource.Configure None NewBatteryDataSource = BatteryDataSource.mk None
  /\ WifiNetworksDataSource.Configure None NewWifiNetworksDataSource
     = WifiNetworksDataSource.mk None
  /\ HealthDataSource.Configure None NewHealthDataSource = HealthDataSource.mk None
  /\ ReadyDataSource.Configure None NewReadyDataSource = ReadyDataSource.mk None
  /\ MovementLockDataSource.Configure None NewMovementLockDataSource
     = MovementLockDataSource.mk None.
Proof.
  split; [|repeat split].
  destruct op as [[] | | |]; unfold_handlers;
    try destruct (model.MovementRequest.encode _) as [v|e]; reflexivity.
Qed.

(** X7. When nothing was reported before the request went out, a call
    that ends with a diagnostic has left the tracked state as it was:
    failures never overwrite a part of it. *)
Theorem reported_failure_keeps_state (op : ops.t) (parses : string -> bool)
    (c : clients.Client.t) (input : ops.Model op) (tracked : option (ops.Model op)) :
  reportedBefore op input = [] ->
  match call (ops.handle op parses (Some c) input) (Response.mk [] tracked) with
  | Finished resp _ => Response.Diagnostics resp = [] \/ Response.State resp = tracked
  | Panicked _ => True
  end.
Proof.
  intros Hbefore.
  destruct op as [[] | | |]; unfold_handlers;
    cbn [clients.Client.Config clients.Client.HttpClient reportedBefore] in *;
    unfold ops.createBody;
    try destruct (model.MovementRequest.encode _) as [v|e];
    try discriminate Hbefore;
    cbv beta iota; split_handler; auto.
Qed.

Lemma reported_failure_keeps_state_witness :
  match call (ops.handle (ops.ProbeRead ops.Health) anyURL
                (Some (rover (always 200 htmlBody)))
                (HealthDataSourceModel.mk types.Null))
             (Response.mk [] (Some (HealthDataSourceModel.mk (types.Known true)))) with
  | Finished resp _ =>
      Response.Diagnostics resp = [] \/
      Response.State resp = Some (HealthDataSourceModel.mk (types.Known true))
  | Panicked _ => True
  end.
Proof.
  apply (reported_failure_keeps_state (ops.ProbeRead ops.Health) anyURL
           (rover (always 200 htmlBody)) (HealthDataSourceModel.mk types.Null)
           (Some (HealthDataSourceModel.mk (types.Known true)))).
  reflexivity.
Defined.

(** Unfolding a handler up to the test on the diagnostics at hand. *)
Ltac unfold_to_guard :=
  cbv [ops.handle
       DeviceDataSource.Read BatteryDataSource.Read WifiNetworksDataSource.Read
       HealthDataSource.Read ReadyDataSource.Read MovementLockDataSource.Read
       MovementResource.Create MovementResource.Read MovementResource.Delete
       MovementResource.Update
       tfsdk.Get datasource.ReadRequest.Config resource.CreateRequest.Plan
       resource.ReadRequest.State resource.DeleteRequest.State resource.UpdateRequest.Plan
       call bind return_ Append HasError
       World.resp World.sent Response.Diagnostics Response.State].

(** X8. A handler called with a response that already holds an error
    returns at once: the response is unchanged and nothing is sent,
    whether the component is configured or not. *)
Theorem earlier_error_stops_the_handler (op : ops.t) (parses : string -> bool)
    (client : option clients.Client.t) (input : ops.Model op)
    (resp : Response.t (ops.Model op))
    (r : MovementResource.t) (req : resource.UpdateRequest.t MovementResourceModel.t)
    (resp' : Response.t MovementResourceModel.t) :
  diag.HasError (Response.Diagnostics resp) = true ->
  diag.HasError (Response.Diagnostics resp') = true ->
  call (ops.handle op parses client input) resp = Finished resp []
  /\ call (MovementResource.Update r req) resp' = Finished resp' [].
Proof.
  intros Herr Herr'. destruct resp as [ds st], resp' as [ds' st'].
  cbn [Response.Diagnostics] in Herr, Herr'.
  split.
  - destruct op as [[] | | |]; unfold_to_guard;
      rewrite app_nil_r, Herr; reflexivity.
  - unfold_to_guard. rewrite app_nil_r, Herr'. reflexivity.
Qed.

Lemma earlier_error_stops_the_handler_witness :
  let failed {T} : Response.t T :=
    Response.mk [diag.NewErrorDiagnostic diag.configuration "Value Conversion Error" ""] None in
  call (ops.handle ops.MovementCreate anyURL (Some (rover (always 201 movingBody)))
          examplePlan) failed
  = Finished failed []
  /\ call (MovementResource.Update (MovementResource.mk None)
             (resource.UpdateRequest.mk examplePlan examplePlan)) failed
     = Finished failed [].
Proof.
  apply (earlier_error_stops_the_handler ops.MovementCreate anyURL
           (Some (rover (always 201 movingBody))) examplePlan
           (Response.mk [diag.NewErrorDiagnostic diag.configuration "Value Conversion Error" ""] None)
           (MovementResource.mk None) (resource.UpdateRequest.mk examplePlan examplePlan)
           (Response.mk [diag.NewErrorDiagnostic diag.configuration "Value Conversion Error" ""] None)).
  - reflexivity.
  - reflexivity.
Defined.

(** ** What a successful read stores *)

(** X9. When the Wi-Fi scan is answered with a status other than 404
    and a body that decodes, the stored networks are the decoded items
    in their order, one for one, each with known values. *)
Theorem wifi_read_stores_networks_in_order (parses : string -> bool)
    (c : clients.Client.t) (config : WifiNetworksDataSourceModel.t)
    (tracked : option WifiNetworksDataSourceModel.t)
    (httpResp : http.Response.t) (readResp : list model.WifiNetworkItem.t) :
  ops.answered (ops.ProbeRead ops.WifiNetworks) parses c config httpResp ->
  http.Response.StatusCode httpResp <> http.StatusNotFound ->
  json.Decode (json.decodeSlice "[]model.WifiNetworkItem" model.WifiNetworkItem.decode
                   model.WifiNetworkItem.zero)
    [] (http.Response.Body httpResp) = Ok readResp ->
  exists networks,
    call (WifiNetworksDataSource.Read parses (WifiNetworksDataSource.mk (Some c))
            (datasource.ReadRequest.mk config))
         (Response.mk [] tracked)
    = Finished (Response.mk [] (Some (WifiNetworksDataSourceModel.mk networks)))
        [ops.request (ops.ProbeRead ops.WifiNetworks) c config]
    /\ length networks = length readResp
    /\ forall (i : nat) item,
         readResp !! i = Some item ->
         networks !! i
         = Some (WifiNetworkModel.mk
                   (types.Known (model.WifiNetworkItem.Encrypted item))
                   (types.Known (model.WifiNetworkItem.Rssi item))
                   (types.Known (model.WifiNetworkItem.Ssid item))).
Proof.
  intros [Hparse Hdo] Hne Hdec. apply neq_404 in Hne.
  exists (WifiNetworksDataSource.convertNetworks readResp).
  split; [|rewrite convertNetworks_map; split].
  - unfold_handlers. rewrite Hparse. cbv beta iota.
    rewrite Hdo. cbv beta iota. rewrite Hne, Hdec. reflexivity.
  - apply length_fmap.
  - intros i item Hi. rewrite list_lookup_fmap, Hi. reflexivity.
Qed.

Lemma wifi_read_stores_networks_in_order_witness :
  let body := json.Doc (json.Array
                [ json.Object [ ("ssid", json.Str "rover"); ("rssi", json.Num (json.Integer true 40));
                                ("encrypted", json.Bool true) ];
                  json.Object [ ("ssid", json.Str "guest"); ("rssi", json.Num (json.Integer true 70));
                                ("encrypted", json.Bool false) ] ]) in
  let readResp := [ model.WifiNetworkItem.mk true (finite64_of_Z (-40)) "rover";
                    model.WifiNetworkItem.mk false (finite64_of_Z (-70)) "guest" ] in
  exists networks,
    call (WifiNetworksDataSource.Read anyURL
            (WifiNetworksDataSource.mk (Some (rover (always 200 body))))
            (datasource.ReadRequest.mk (WifiNetworksDataSourceModel.mk [])))
         (Response.mk [] None)
    = Finished (Response.mk [] (Some (WifiNetworksDataSourceModel.mk networks)))
        [ops.request (ops.ProbeRead ops.WifiNetworks) (rover (always 200 body))
           (WifiNetworksDataSourceModel.mk [])]
    /\ length networks = length readResp
    /\ forall (i : nat) item,
         readResp !! i = Some item ->
         networks !! i
         = Some (WifiNetworkModel.mk
                   (types.Known (model.WifiNetworkItem.Encrypted item))
                   (types.Known (model.WifiNetworkItem.Rssi item))
                   (types.Known (model.WifiNetworkItem.Ssid item))).
Proof.
  intros body readResp.
  apply (wifi_read_stores_networks_in_order anyURL (rover (always 200 body))
           (WifiNetworksDataSourceModel.mk []) None (http.Response.mk 200 body) readResp).
  - split; reflexivity.
  - intros H; discriminate H.
  - vm_compute. reflexivity.
Defined.

(** X10. The health, readiness and movement-lock probes store the flag
    that the device sends under [healthy], [ready] and [locked], and
    the battery probe the [value] and [unit] it sends, as known values,
    for every status other than 404. *)
Theorem probes_store_what_the_device_sent (status : Z) (b : bool) (value : int64)
    (unit : string) :
  status <> http.StatusNotFound ->
  in_int64 value = true ->
  let device key v := Some (rover (always status (json.Doc (json.Object [(key, v)])))) in
  let gauge := Some (rover (always status
                 (json.Doc (json.Object [ ("value", json.encodeInt64 value);
                                          ("unit", json.Str unit) ])))) in
  call (HealthDataSource.Read anyURL (HealthDataSource.mk (device "healthy" (json.Bool b)))
          (datasource.ReadRequest.mk (HealthDataSourceModel.mk types.Null)))
       (Response.mk [] None)
  = Finished (Response.mk [] (Some (HealthDataSourceModel.mk (types.Known b))))
      [http.Request.mk "GET" "http://192.168.4.1:80/v1/healthz" [] json.Empty]
  /\ call (ReadyDataSource.Read anyURL (ReadyDataSource.mk (device "ready" (json.Bool b)))
             (datasource.ReadRequest.mk (ReadyDataSourceModel.mk types.Null)))
          (Response.mk [] None)
     = Finished (Response.mk [] (Some (ReadyDataSourceModel.mk (types.Known b))))
         [http.Request.mk "GET" "http://192.168.4.1:80/v1/readyz" [] json.Empty]
  /\ call (MovementLockDataSource.Read anyURL
             (MovementLockDataSource.mk (device "locked" (json.Bool b)))
             (datasource.ReadRequest.mk (MovementLockDataSourceModel.mk types.Null)))
          (Response.mk [] None)
     = Finished (Response.mk [] (Some (MovementLockDataSourceModel.mk (types.Known b))))
         [http.Request.mk "GET" "http://192.168.4.1:80/v1/movement/lock" [] json.Empty]
  /\ call (BatteryDataSource.Read anyURL (BatteryDataSource.mk gauge)
             (datasource.ReadRequest.mk (BatteryDataSourceModel.mk types.Null types.Null)))
          (Response.mk [] None)
     = Finished
         (Response.mk []
            (Some (BatteryDataSourceModel.mk (types.Known value) (types.Known unit))))
         [http.Request.mk "GET" "http://192.168.4.1:80/v1/device/battery" [] json.Empty].
Proof.
  intros Hne Hvalue device gauge. subst device gauge. apply neq_404 in Hne.
  repeat split; unfold_handlers; cbn [anyURL]; cbv beta iota;
    cbn [clients.Client.HttpClient rover always http.Client.Do
         http.Response.StatusCode http.Response.Body];
    rewrite Hne.
  1-3: reflexivity.
  unfold json.Decode, model.BatteryResponse.decode, json.decodeStruct.
  cbn [foldM_result fst snd json.lookupField model.BatteryResponse.fields
       List.find String.eqb Ascii.eqb Bool.eqb result_bind json.decodeString
       model.BatteryResponse.Unit model.BatteryResponse.Value model.BatteryResponse.zero].
  rewrite (int64_roundtrip _ _ _ Hvalue). reflexivity.
Qed.

Lemma probes_store_what_the_device_sent_witness :
  call (BatteryDataSource.Read anyURL
          (BatteryDataSource.mk
             (Some (rover (always 200
                (json.Doc (json.Object [ ("value", json.encodeInt64 87);
                                         ("unit", json.Str "%") ]))))))
          (datasource.ReadRequest.mk (BatteryDataSourceModel.mk types.Null types.Null)))
       (Response.mk [] None)
  = Finished
      (Response.mk []
         (Some (BatteryDataSourceModel.mk (types.Known 87) (types.Known "%"))))
      [http.Request.mk "GET" "http://192.168.4.1:80/v1/device/battery" [] json.Empty].
Proof.
  pose proof (probes_store_what_the_device_sent 200 true 87 "%") as H.
  cbv zeta in H. apply H.
  - intros E; discriminate E.
  - reflexivity.
Defined.

(** X11. A movement read answered with a status other than 404 and a
    body that decodes stores the tracked values it was called with,
    whatever [moving] says and whatever the response held before: a
    read never changes a tracked attribute. *)
Theorem movement_read_keeps_tracked_values (parses : string -> bool)
    (c : clients.Client.t) (tracked : MovementResourceModel.t)
    (state : option MovementResourceModel.t)
    (httpResp : http.Response.t) (readResp : model.MovementResponse.t) :
  ops.answered ops.MovementRead parses c tracked httpResp ->
  http.Response.StatusCode httpResp <> http.StatusNotFound ->
  json.Decode model.MovementResponse.decode model.MovementResponse.zero
    (http.Response.Body httpResp) = Ok readResp ->
  call (MovementResource.Read parses (MovementResource.mk (Some c))
          (resource.ReadRequest.mk tracked))
       (Response.mk [] state)
  = Finished (Response.mk [] (Some tracked)) [ops.request ops.MovementRead c tracked].
Proof.
  intros [Hparse Hdo] Hne Hdec. apply neq_404 in Hne.
  unfold_handlers. rewrite Hparse. cbv beta iota.
  rewrite Hdo. cbv beta iota. rewrite Hne, Hdec. reflexivity.
Qed.

Lemma movement_read_keeps_tracked_values_witness :
  call (MovementResource.Read anyURL
          (MovementResource.mk
             (Some (rover (always 200 (json.Doc (json.Object [("moving", json.Bool false)]))))))
          (resource.ReadRequest.mk examplePlan))
       (Response.mk [] (Some examplePlan))
  = Finished (Response.mk [] (Some examplePlan))
      [http.Request.mk "GET" "http://192.168.4.1:80/v1/movement" [] json.Empty].
Proof.
  apply (movement_read_keeps_tracked_values anyURL
           (rover (always 200 (json.Doc (json.Object [("moving", json.Bool false)]))))
           examplePlan (Some examplePlan)
           (http.Response.mk 200 (json.Doc (json.Object [("moving", json.Bool false)])))
           (model.MovementResponse.mk false)).
  - split; reflexivity.
  - intros H; discriminate H.
  - reflexivity.
Defined.

(** ** What the create request can carry *)

Lemma encodeFloat64_number (x : finite64) :
  exists v, json.encodeFloat64 (float64_of_finite x) = Ok v.
Proof.
  destruct x as [s | s m e]; cbn [float64_of_finite json.encodeFloat64];
    [eexists; reflexivity|].
  destruct (json.whole m e) as [n|]; [destruct (Z.of_N n <? 10 ^ 21)|];
    eexists; reflexivity.
Qed.

Lemma items_encode (l : list model.MovementStepItem.t) :
  exists items, mapM_result model.MovementStepItem.encode l = Ok items
                /\ length items = length l.
Proof.
  induction l as [|x l (items & Hl & Hlen)]; [exists []; split; reflexivity|].
  destruct (encodeFloat64_number (model.MovementStepItem.Distance x)) as (v & Hv).
  cbn [mapM_result]. unfold model.MovementStepItem.encode at 1.
  rewrite Hv, Hl. cbn [result_bind].
  eexists. split; [reflexivity|]. cbn [length]. now rewrite Hlen.
Qed.

Lemma plan_encodes (planned : MovementResourceModel.t) :
  exists items,
    model.MovementRequest.encode
      (model.MovementRequest.mk
         (types.ValueString (MovementResourceModel.Name planned))
         (types.ValueBool (MovementResourceModel.Persist planned))
         (MovementResource.convertSteps (MovementResourceModel.Steps planned)))
    = Ok (json.Object
            [ ("name", json.Str (types.ValueString (MovementResourceModel.Name planned)));
              ("persist", json.Bool (types.ValueBool (MovementResourceModel.Persist planned)));
              ("steps", json.Array items) ])
    /\ length items = length (MovementResourceModel.Steps planned).
Proof.
  destruct (items_encode (MovementResource.convertSteps (MovementResourceModel.Steps planned)))
    as (items & Hitems & Hlen).
  exists items. unfold model.MovementRequest.encode.
  cbn [model.MovementRequest.Steps model.MovementRequest.Name model.MovementRequest.Persist].
  rewrite Hitems. split; [reflexivity|].
  rewrite Hlen, convertSteps_map. apply length_fmap.
Qed.

Lemma reportedBefore_nil (op : ops.t) (input : ops.Model op) : reportedBefore op input = [].
Proof.
  destruct op as [[] | | |]; try reflexivity.
  cbn [reportedBefore]. destruct (plan_encodes input) as (items & -> & _). reflexivity.
Qed.

(** X12. Every plan encodes.  Whatever the name, the flag and the steps
    of a plan are, the body that [Create] posts is an object with the
    members [name], [persist] and [steps], the last an array with one
    element per step; [Create] never posts an empty body and never
    reports a failure to encode, configured or not and whatever the
    device answers. *)
Theorem every_plan_encodes (planned : MovementResourceModel.t) :
  (exists items,
     ops.createBody planned
     = json.Doc (json.Object
         [ ("name", json.Str (types.ValueString (MovementResourceModel.Name planned)));
           ("persist", json.Bool (types.ValueBool (MovementResourceModel.Persist planned)));
           ("steps", json.Array items) ])
     /\ length items = length (MovementResourceModel.Steps planned))
  /\ (forall (parses : string -> bool) (client : option clients.Client.t)
        (tracked : option MovementResourceModel.t),
        ~ reports diag.encode
            (call (MovementResource.Create parses (MovementResource.mk client)
                     (resource.CreateRequest.mk planned))
                  (Response.mk [] tracked))).
Proof.
  destruct (plan_encodes planned) as (items & Henc & Hlen).
  split.
  - exists items. unfold ops.createBody. rewrite Henc. split; [reflexivity | exact Hlen].
  - intros parses client tracked (resp & sent & d & Heq & Hin & Hk).
    revert Heq. unfold_handlers. rewrite Henc. cbv beta iota.
    destruct client as [c|]; cbv beta iota; [|discriminate].
    split_handler; intros Heq; try discriminate Heq;
      injection Heq as <- _; cbn in Hin;
      repeat (destruct Hin as [<- | Hin]; [discriminate Hk|]); exact Hin.
Qed.

(** ** What the schema accepts *)

Lemma validateStep_nil (step : MovementStepsModel.t) :
  host.validateStep step = [] <-> admissible_step step.
Proof.
  unfold host.validateStep, admissible_step.
  cbn [MovementResource.Schema.direction MovementResource.Schema.distance
       List.map List.concat].
  destruct (MovementStepsModel.Direction step) as [| |s],
           (MovementStepsModel.Distance step) as [| |d];
    cbn [stringvalidator.Validate stringvalidator.ValidateString float64validator.Validate
         List.map existsb app List.concat];
    try (split; [intros _; split; exact I | reflexivity]).
  - destruct (float64_lt _ float64_1), (float64_gt _ float64_100); cbn;
      split; try discriminate; try tauto; intros [_ [H1 H2]]; discriminate.
  - destruct (float64_lt _ float64_1), (float64_gt _ float64_100); cbn;
      split; try discriminate; try tauto; intros [_ [H1 H2]]; discriminate.
  - destruct (String.eqb_spec s "forward") as [->|Hf]; cbn.
    + split; [intros _; split; [now left | exact I] | reflexivity].
    + destruct (String.eqb_spec s "backward") as [->|Hb]; cbn.
      * split; [intros _; split; [now right | exact I] | reflexivity].
      * split; [discriminate | intros [[E|E] _]; contradiction].
  - destruct (String.eqb_spec s "forward") as [->|Hf]; cbn.
    + split; [intros _; split; [now left | exact I] | reflexivity].
    + destruct (String.eqb_spec s "backward") as [->|Hb]; cbn.
      * split; [intros _; split; [now right | exact I] | reflexivity].
      * split; [discriminate | intros [[E|E] _]; contradiction].
  - destruct (String.eqb_spec s "forward") as [->|Hf]; cbn.
    + destruct (float64_lt _ float64_1), (float64_gt _ float64_100); cbn;
        split; try discriminate; try tauto; intros [_ [H1 H2]]; discriminate.
    + destruct (String.eqb_spec s "backward") as [->|Hb]; cbn.
      * destruct (float64_lt _ float64_1), (float64_gt _ float64_100); cbn;
          split; try discriminate; try tauto; intros [_ [H1 H2]]; discriminate.
      * split; [discriminate | intros [[E|E] _]; contradiction].
Qed.

Lemma concat_map_nil {A B} (f : A -> list B) (l : list A) :
  List.concat (List.map f l) = [] <-> Forall (fun x => f x = []) l.
Proof.
  induction l as [|x l IH]; cbn [List.map List.concat].
  - split; [constructor | reflexivity].
  - split.
    + intros H. apply app_eq_nil in H as [Hx Hl]. constructor; [exact Hx | now apply IH].
    + intros H. apply Forall_cons in H as [Hx Hl]. rewrite Hx. now apply IH.
Qed.

Lemma conforming_is_accepted (config : MovementResourceModel.t) :
  conforms config -> host.ValidateResourceConfig config = [].
Proof.
  unfold host.ValidateResourceConfig, conforms.
  cbn [MovementResource.Schema.steps List.map List.concat listvalidator.Validate].
  intros (Hne & Hlen & Hall).
  destruct (MovementResourceModel.Steps config) as [|x l] eqn:E; [contradiction|].
  assert (L : (50 <? Z.of_nat (length (x :: l))) = false) by (apply Z.ltb_ge; lia).
  rewrite L. cbn [app]. apply concat_map_nil.
  eapply Forall_impl; [exact Hall|]. intros step Hs. now apply validateStep_nil.
Qed.

Lemma mapM_result_length {A B} (f : A -> result B) (l : list A) (l' : list B) :
  mapM_result f l = Ok l' -> length l' = length l.
Proof.
  revert l'. induction l as [|x l IH]; intros l' H; cbn [mapM_result] in H.
  - injection H as <-. reflexivity.
  - destruct (f x); [|discriminate H].
    destruct (mapM_result f l) as [ys|]; [|discriminate H].
    injection H as <-. cbn [length]. f_equal. now apply IH.
Qed.

(** X14. Creating a conforming configuration whose distances are finite
    posts one request whose body is an object with the members [name],
    [persist] and [steps], in this order, with one array element per
    step; [persist] is [true] when the configuration leaves it out, by
    the default of the schema, and the configured flag otherwise. *)
Theorem create_posts_the_persist_default (parses : string -> bool)
    (c : clients.Client.t) (config : MovementResourceModel.t) :
  conforms config ->
  ops.createBody (host.plan config) <> json.Empty ->
  parses (ops.url ops.MovementCreate c) = true ->
  exists resp items,
    host.CreateResource parses (MovementResource.mk (Some c)) config
    = Finished resp
        [http.Request.mk "POST" (ops.url ops.MovementCreate c) []
           (json.Doc (json.Object
              [ ("name", json.Str (types.ValueString (MovementResourceModel.Name config)));
                ("persist",
                 json.Bool match MovementResourceModel.Persist config with
                           | types.Null => true
                           | types.Known p => p
                           | types.Unknown => false
                           end);
                ("steps", json.Array items) ]))]
    /\ length items = length (MovementResourceModel.Steps config).
Proof.
  intros Hconf Hbody Hparse.
  unfold host.CreateResource. rewrite (conforming_is_accepted config Hconf).
  cbn [diag.HasError existsb].
  destruct config as [name persist steps].
  unfold ops.createBody, model.MovementRequest.encode in Hbody.
  unfold_handlers. unfold model.MovementRequest.encode.
  cbn [model.MovementRequest.Steps model.MovementRequest.Name
       model.MovementRequest.Persist host.plan MovementResourceModel.Steps
       MovementResourceModel.Name MovementResourceModel.Persist
       clients.Client.Config clients.Client.HttpClient] in *.
  destruct (mapM_result model.MovementStepItem.encode _) as [items|e] eqn:Hitems;
    cbn [result_bind] in *; [|now contradiction Hbody].
  apply mapM_result_length in Hitems.
  rewrite convertSteps_map, length_fmap in Hitems.
  cbv beta iota. rewrite Hparse.
  destruct persist; cbn [types.ValueBool]; split_handler;
    eexists _, items; (split; [reflexivity | exact Hitems]).
Qed.

Lemma create_posts_the_persist_default_witness :
  let config := MovementResourceModel.mk (types.Known "example") types.Null [forward1] in
  exists resp items,
    host.CreateResource anyURL (MovementResource.mk (Some (rover (always 201 movingBody))))
      config
    = Finished resp
        [http.Request.mk "POST" "http://192.168.4.1:80/v1/movement" []
           (json.Doc (json.Object
              [ ("name", json.Str "example");
                ("persist", json.Bool true);
                ("steps", json.Array items) ]))]
    /\ length items = 1%nat.
Proof.
  intros config.
  apply (create_posts_the_persist_default anyURL (rover (always 201 movingBody)) config).
  - split; [discriminate|]. split; [cbn; lia|].
    constructor; [|constructor].
    split; [left; reflexivity | split; reflexivity].
  - intros E. discriminate E.
  - reflexivity.
Defined.

(** ** Writes answered with 404 *)

(** X6. A create or a delete that is answered with status 404 removes
    the state and reports nothing.  For the delete that is the end; the
    create, which has neither an error nor a state to show, is then
    failed by the framework with the error Missing Resource State After
    Create. *)
Theorem write_404_clears_state (parses : string -> bool) (c : clients.Client.t)
    (httpResp : http.Response.t) :
  http.Response.StatusCode httpResp = http.StatusNotFound ->
  (forall (op : ops.t) (input : ops.Model op) (tracked : option (ops.Model op)),
     ops.isRead op = false ->
     ops.answered op parses c input httpResp ->
     call (ops.handle op parses (Some c) input) (Response.mk [] tracked)
     = Finished (Response.mk [] None) [ops.request op c input])
  /\ (forall config : MovementResourceModel.t,
        conforms config ->
        ops.answered ops.MovementCreate parses c (host.plan config) httpResp ->
        exists detail,
          host.CreateResource parses (MovementResource.mk (Some c)) config
          = Finished
              (Response.mk
                 [diag.NewErrorDiagnostic diag.framework
                    "Missing Resource State After Create" detail]
                 None)
              [ops.request ops.MovementCreate c (host.plan config)]).
Proof.
  intros H404.
  assert (Hhandler :
    forall (op : ops.t) (input : ops.Model op) (tracked : option (ops.Model op)),
      ops.isRead op = false ->
      ops.answered op parses c input httpResp ->
      call (ops.handle op parses (Some c) input) (Response.mk [] tracked)
      = Finished (Response.mk [] None) [ops.request op c input]).
  { intros op input tracked Hwrite [Hparse Hdo].
    pose proof (reportedBefore_nil op input) as Hnil.
    destruct op as [[] | | |]; try discriminate Hwrite; unfold_handlers;
      cbn [clients.Client.Config clients.Client.HttpClient reportedBefore] in *;
      unfold ops.createBody in *;
      try (destruct (model.MovementRequest.encode _) as [v|e]; [|discriminate Hnil]);
      cbv beta iota; rewrite Hparse; cbv beta iota; rewrite Hdo; cbv beta iota;
      rewrite H404; reflexivity. }
  split; [exact Hhandler|].
  intros config Hconf Hanswered.
  unfold host.CreateResource. rewrite (conforming_is_accepted config Hconf).
  cbn [diag.HasError existsb].
  pose proof (Hhandler ops.MovementCreate (host.plan config) None eq_refl Hanswered) as Hcall.
  cbn [ops.handle ops.Model] in Hcall. eexists. rewrite Hcall. reflexivity.
Qed.

Lemma write_404_clears_state_witness :
  call (ops.handle ops.MovementDelete anyURL (Some (rover (always 404 json.Empty)))
          examplePlan)
       (Response.mk [] (Some examplePlan))
  = Finished (Response.mk [] None)
      [http.Request.mk "DELETE" "http://192.168.4.1:80/v1/movement" [] json.Empty]
  /\ exists detail,
       host.CreateResource anyURL (MovementResource.mk (Some (rover (always 404 json.Empty))))
         examplePlan
       = Finished
           (Response.mk
              [diag.NewErrorDiagnostic diag.framework
                 "Missing Resource State After Create" detail]
              None)
           [ops.request ops.MovementCreate (rover (always 404 json.Empty)) examplePlan].
Proof.
  destruct (write_404_clears_state anyURL (rover (always 404 json.Empty))
              (http.Response.mk 404 json.Empty) eq_refl) as [Hhandler Hhost].
  split.
  - apply (Hhandler ops.MovementDelete examplePlan (Some examplePlan)).
    + reflexivity.
    + split; reflexivity.
  - apply (Hhost examplePlan).
    + split; [discriminate|]. split; [cbn; lia|].
      constructor; [|constructor].
      split; [left; reflexivity | split; reflexivity].
    + split; reflexivity.
Defined.

(** ** Decoding the error envelope *)

(** X15. The error envelope of the API, an object with [message] and
    [status], decodes without error into every response struct: none of
    its keys is a field of theirs, so each struct is left at its zero
    value, whatever the message and the status are.  The Wi-Fi probe,
    which expects an array, is the only one to refuse it, for being an
    object. *)
Theorem error_envelope_decodes (message : string) (status : json.Number) :
  let body := envelope message status in
  json.Decode model.DeviceResponse.decode model.DeviceResponse.zero body
  = Ok model.DeviceResponse.zero
  /\ json.Decode model.BatteryResponse.decode model.BatteryResponse.zero body
     = Ok model.BatteryResponse.zero
  /\ json.Decode model.HealthzResponse.decode model.HealthzResponse.zero body
     = Ok model.HealthzResponse.zero
  /\ json.Decode model.ReadyzResponse.decode model.ReadyzResponse.zero body
     = Ok model.ReadyzResponse.zero
  /\ json.Decode model.MovementLockResponse.decode model.MovementLockResponse.zero body
     = Ok model.MovementLockResponse.zero
  /\ json.Decode model.MovementResponse.decode model.MovementResponse.zero body
     = Ok model.MovementResponse.zero
  /\ json.Decode
       (json.decodeSlice "[]model.WifiNetworkItem" model.WifiNetworkItem.decode
          model.WifiNetworkItem.zero)
       [] body
     = Err (json.UnmarshalTypeError None "object" "[]model.WifiNetworkItem").
Proof. repeat split. Qed.

(** ** Type names *)

Lemma append_inj (p a b : string) : p +:+ a = p +:+ b -> a = b.
Proof.
  induction p as [|ch p IH]; cbn; [trivial|].
  intros H. injection H as H. exact (IH H).
Qed.

(** X16. Under any provider type name the resource and the six data
    sources register seven different type names. *)
Theorem type_names_are_distinct (ProviderTypeName : string) :
  List.NoDup (Resources ProviderTypeName ++ DataSources ProviderTypeName)%list.
Proof.
  unfold Resources, DataSources.
  cbv [MovementResource.Metadata DeviceDataSource.Metadata BatteryDataSource.Metadata
       WifiNetworksDataSource.Metadata HealthDataSource.Metadata ReadyDataSource.Metadata
       MovementLockDataSource.Metadata app].
  repeat (constructor;
          [cbn [In]; intros H;
           repeat (destruct H as [H | H]; [apply append_inj in H; discriminate H|]);
           exact H|]).
  constructor.
Qed.
